(** * Phugoid flight path: a model of [phugoid.py] and its properties

    The script integrates the flight path of a glider in Lanchester's
    phugoid model.  It has two leaf functions, [radius_of_curvature] and
    [rotate], and a driver, [plot_flight_path], which fills two NumPy
    arrays by a fixed-step marching loop and hands them to pyplot.

    The model follows the script at the level of Python objects:
    - a number is either a builtin [float] or a [numpy.float64] scalar, both
      carrying an IEEE binary64 value (Rocq's primitive [float]);
    - arithmetic dispatches on the two kinds as Python does: an operation
      with a NumPy operand is NumPy's and, under the error policy that
      line 7 installs ([numpy.seterr(all='ignore')]), returns the IEEE
      result; an operation on two builtin floats is CPython's, whose [/]
      raises [ZeroDivisionError] and whose [**] can raise as well;
    - the arrays live in a store, addressed by location, and the driver
      runs in a state-and-exception monad over that store;
    - a whole call, plotting included, is read in the state of the
      process: NumPy's error mode for division, the arrays, and the calls
      made to pyplot;
    - the transcendental functions of the C library are parameters. *)

From Stdlib Require Import ZArith Floats Reals Lra Lia Bool.
From stdpp Require Import base list option.

(** ** Exceptions and results *)

Inductive exn : Set :=
  | ZeroDivisionError
  | OverflowError
  | IndexError
  | FloatingPointError.

Inductive result (A : Type) : Type :=
  | Ok (a : A)
  | Raise (e : exn).
Arguments Ok {A} a.
Arguments Raise {A} e.

Definition rbind {A B} (r : result A) (k : A -> result B) : result B :=
  match r with
  | Ok a => k a
  | Raise e => Raise e
  end.

Declare Scope py_scope.
Delimit Scope py_scope with py.
Notation "'do' v <- r ; k" := (rbind r (fun v => k))
  (at level 10, v name, r at level 100, k at level 200) : py_scope.

(** ** Python numbers *)

(** A builtin [float] or a [numpy.float64]; [fl] is the binary64 value. *)
Inductive obj : Set :=
  | PyFloat (f : float)
  | NpFloat (f : float).

Definition fl (o : obj) : float :=
  match o with
  | PyFloat f => f
  | NpFloat f => f
  end.

Definition is_np (o : obj) : bool :=
  match o with
  | PyFloat _ => false
  | NpFloat _ => true
  end.

(** The C library behind NumPy and CPython.  [fcos], [fsin] and [fpow] are
    the binary64 functions NumPy applies to a scalar.  [float_pow] is
    CPython's [float.__pow__] on two builtin floats, which may raise
    ([OverflowError], [ZeroDivisionError]); it is left unspecified (its
    complex results for a negative base are outside this model) and the
    driver never reaches it. *)
Class Libm : Type := {
  fcos : float -> float;
  fsin : float -> float;
  fpow : float -> float -> float;
  float_pow : float -> float -> result obj
}.

(** What C11 Annex F fixes of these functions at the points used below. *)
Record AnnexF (L : Libm) : Prop := {
  cos_zero : fcos 0%float = 1%float;
  sin_zero : fsin 0%float = 0%float;
  pow_one : forall y, fpow 1%float y = 1%float;
  pow_neg_infinity_half : fpow neg_infinity 0.5%float = infinity
}.

(** numpy.pi *)
Definition numpy_pi : float := 0x1.921fb54442d18p+1%float.

Section Operators.
Context {L : Libm}.

(** [+], [-], [*] and unary [-] never raise on floats; the result is a
    NumPy scalar as soon as one operand is. *)
Definition binop (f : float -> float -> float) (a b : obj) : obj :=
  match a, b with
  | PyFloat u, PyFloat v => PyFloat (f u v)
  | _, _ => NpFloat (f (fl a) (fl b))
  end.

Definition py_add : obj -> obj -> obj := binop PrimFloat.add.
Definition py_sub : obj -> obj -> obj := binop PrimFloat.sub.
Definition py_mul : obj -> obj -> obj := binop PrimFloat.mul.

Definition py_neg (a : obj) : obj :=
  match a with
  | PyFloat u => PyFloat (- u)
  | NpFloat u => NpFloat (- u)
  end.

(** [a / b]: CPython raises on a zero divisor, NumPy divides. *)
Definition py_truediv (a b : obj) : result obj :=
  match a, b with
  | PyFloat u, PyFloat v =>
      if (v =? 0)%float then Raise ZeroDivisionError else Ok (PyFloat (u / v))
  | _, _ => Ok (NpFloat (fl a / fl b))
  end.

(** [a ** b] *)
Definition py_pow (a b : obj) : result obj :=
  match a, b with
  | PyFloat u, PyFloat v => float_pow u v
  | _, _ => Ok (NpFloat (fpow (fl a) (fl b)))
  end.

(** numpy.cos, numpy.sin: a NumPy scalar whatever the argument is. *)
Definition np_cos (a : obj) : obj := NpFloat (fcos (fl a)).
Definition np_sin (a : obj) : obj := NpFloat (fsin (fl a)).
End Operators.

(** ** The arithmetic [rotate] is written in

    [rotate] uses only operations that cannot raise, so one definition is
    read over Python objects, over bare binary64 values and over the real
    numbers. *)
Class Arith (A : Type) : Type := {
  add : A -> A -> A;
  sub : A -> A -> A;
  mul : A -> A -> A;
  neg : A -> A;
  numpy_cos : A -> A;
  numpy_sin : A -> A
}.

Declare Scope arith_scope.
Delimit Scope arith_scope with ar.
Infix "+" := add : arith_scope.
Infix "-" := sub : arith_scope.
Infix "*" := mul : arith_scope.
Notation "- a" := (neg a) : arith_scope.

#[export] Instance obj_arith {L : Libm} : Arith obj := {|
  add := py_add; sub := py_sub; mul := py_mul; neg := py_neg;
  numpy_cos := np_cos; numpy_sin := np_sin
|}.

#[export] Instance float_arith {L : Libm} : Arith float := {|
  add := PrimFloat.add; sub := PrimFloat.sub; mul := PrimFloat.mul;
  neg := PrimFloat.opp; numpy_cos := fcos; numpy_sin := fsin
|}.

#[export] Instance real_arith : Arith R := {|
  add := Rplus; sub := Rminus; mul := Rmult; neg := Ropp;
  numpy_cos := cos; numpy_sin := sin
|}.

(** ** [rotate] (lines 32-60) *)
Definition rotate {A : Type} `{Arith A} (x z xCenter zCenter angle : A) : A * A :=
  let dx := (x - xCenter)%ar in
  let dz := (z - zCenter)%ar in
  let xNew := (dx * numpy_cos angle + dz * numpy_sin angle)%ar in
  let zNew := ((- dx) * numpy_sin angle + dz * numpy_cos angle)%ar in
  ((xCenter + xNew)%ar, (zCenter + zNew)%ar).

(** ** [radius_of_curvature] (lines 13-30)

    [zt / (1./3. - C/2.*(zt/z)**1.5)], operands evaluated left to right. *)
Definition radius_of_curvature {L : Libm} (z zt C : obj) : result obj :=
  (do third <- py_truediv (PyFloat 1) (PyFloat 3);
   do half_C <- py_truediv C (PyFloat 2);
   do ratio <- py_truediv zt z;
   do power <- py_pow ratio (PyFloat 1.5);
   py_truediv zt (py_sub third (py_mul half_C power)))%py.

(** ** The store of NumPy arrays

    A float64 array is a list of binary64 values held in a store and named
    by its location, so that an element assignment is an update of the
    store.  Reading or writing past the end raises [IndexError]. *)
Abbreviation loc := nat.
Abbreviation store := (list (list float)).

Definition M (A : Type) : Type := store -> result (A * store).

Definition ret {A} (a : A) : M A := fun h => Ok (a, h).

Definition bind {A B} (m : M A) (k : A -> M B) : M B :=
  fun h =>
    match m h with
    | Ok (a, h') => k a h'
    | Raise e => Raise e
    end.

Definition lift {A} (r : result A) : M A :=
  fun h =>
    match r with
    | Ok a => Ok (a, h)
    | Raise e => Raise e
    end.

Declare Scope st_scope.
Delimit Scope st_scope with st.
Notation "'do' v <- m ; k" := (bind m (fun v => k))
  (at level 10, v name, m at level 100, k at level 200) : st_scope.
Notation "m ;; k" := (bind m (fun _ => k))
  (at level 100, k at level 200, right associativity) : st_scope.

(** numpy.zeros(n): a fresh array of [n] zeros. *)
Definition numpy_zeros (n : nat) : M loc :=
  fun h => Ok (length h, h ++ [replicate n 0%float]).

(** [a[i]]: the element, as a NumPy scalar. *)
Definition getitem (a : loc) (i : nat) : M obj :=
  fun h =>
    match h !! a ≫= (.!! i) with
    | Some f => Ok (NpFloat f, h)
    | None => Raise IndexError
    end.

(** [a[i] = v] *)
Definition setitem (a : loc) (i : nat) (v : obj) : M unit :=
  fun h =>
    match h !! a with
    | Some l =>
        if decide (i < length l) then Ok (tt, <[a := <[i := fl v]> l]> h)
        else Raise IndexError
    | None => Raise IndexError
    end.

(** ** [plot_flight_path] (lines 62-101)

    The local variables that live across the loop.  [v_z] and [v_x] name
    the two arrays. *)
Record locals : Set := Locals {
  v_z : loc;
  v_x : loc;
  v_theta : obj;
  v_C : obj;
  v_ds : obj
}.

Definition N : nat := 1000.

Section Driver.
Context {L : Libm}.
Local Open Scope st_scope.

(** Lines 96-101, the body of [for i in range(1,N)].  The index [i] is at
    least 1 there, so [i-1] is the natural number [i - 1]. *)
Definition loop_body (zt : obj) (i : nat) (s : locals) : M locals :=
  (* normal = numpy.array([numpy.cos(theta+numpy.pi/2.),
                           -numpy.sin(theta+numpy.pi/2.)]) *)
  do q1 <- lift (py_truediv (PyFloat numpy_pi) (PyFloat 2));
  do q2 <- lift (py_truediv (PyFloat numpy_pi) (PyFloat 2));
  let normal :=
    (numpy_cos (v_theta s + q1)%ar, (- numpy_sin (v_theta s + q2))%ar) in
  (* R = radius_of_curvature(z[i-1], zt, C) *)
  do z_prev <- getitem (v_z s) (i - 1);
  do R <- lift (radius_of_curvature z_prev zt (v_C s));
  (* center = numpy.array([x[i-1]+normal[0]*R, z[i-1]+normal[1]*R]) *)
  do x_prev <- getitem (v_x s) (i - 1);
  do z_prev <- getitem (v_z s) (i - 1);
  let center :=
    ((x_prev + normal.1 * R)%ar, (z_prev + normal.2 * R)%ar) in
  (* dtheta = ds/R *)
  do dtheta <- lift (py_truediv (v_ds s) R);
  (* x[i], z[i] = rotate(x[i-1], z[i-1], center[0], center[1], dtheta) *)
  do x_prev <- getitem (v_x s) (i - 1);
  do z_prev <- getitem (v_z s) (i - 1);
  let new := rotate x_prev z_prev center.1 center.2 dtheta in
  setitem (v_x s) i new.1 ;;
  setitem (v_z s) i new.2 ;;
  (* theta = theta + dtheta *)
  ret (Locals (v_z s) (v_x s) (v_theta s + dtheta)%ar (v_C s) (v_ds s)).

(** [for i in l: body] *)
Fixpoint for_each (l : list nat) (body : nat -> locals -> M locals)
    (s : locals) : M locals :=
  match l with
  | [] => ret s
  | i :: l' => do s' <- body i s; for_each l' body s'
  end.

(** Line 89: [C = (numpy.cos(theta) - 1./3.*z[0]/zt)*(z[0]/zt)**.5] *)
Definition integration_constant (z : loc) (zt theta : obj) : M obj :=
  let c := numpy_cos theta in
  do third <- lift (py_truediv (PyFloat 1) (PyFloat 3));
  do z_0 <- getitem z 0;
  do t <- lift (py_truediv (third * z_0)%ar zt);
  let left := (c - t)%ar in
  do z_0 <- getitem z 0;
  do ratio <- lift (py_truediv z_0 zt);
  do root <- lift (py_pow ratio (PyFloat 0.5));
  ret (left * root)%ar.

(** Lines 79-91: the arrays, the initial conditions, [C] and [ds]. *)
Definition setup (zt z0 theta0 : obj) : M locals :=
  do z <- numpy_zeros N;
  do x <- numpy_zeros N;
  setitem z 0 z0 ;;
  setitem x 0 (PyFloat 0) ;;
  let theta := theta0 in
  do C <- integration_constant z zt theta;
  let ds := PyFloat 1 in
  ret (Locals z x theta C ds).

(** Lines 79-101: everything up to the plotting calls, the loop being
    [for i in range(1,N)].  The result is the local state that lines
    104-111 hand to pyplot. *)
Definition plot_flight_path (zt z0 theta0 : obj) : M locals :=
  do s <- setup zt z0 theta0;
  for_each (seq 1 (N - 1)) (loop_body zt) s.
End Driver.

(** ** The specification's formulas, as it writes them

    Each is read in binary64 arithmetic with the usual left-to-right
    grouping of an unparenthesised sum, to be compared with what the code
    computes. *)

(** [R = zt / (1/3 - (C/2) * (zt/z)^1.5)] *)
Definition CurvatureRadius_spec {L : Libm} (z zt C : float) : float :=
  (zt / (1 / 3 - (C / 2) * fpow (zt / z) 1.5))%float.

(** [xNew = xCenter + dx*cos(angle) + dz*sin(angle)],
    [zNew = zCenter - dx*sin(angle) + dz*cos(angle)] *)
Definition RotatePoint_spec {A : Type} `{Arith A}
    (x z xCenter zCenter angle : A) : A * A :=
  let dx := (x - xCenter)%ar in
  let dz := (z - zCenter)%ar in
  ((xCenter + dx * numpy_cos angle + dz * numpy_sin angle)%ar,
   (zCenter - dx * numpy_sin angle + dz * numpy_cos angle)%ar).

(** [C = (cos(theta0) - (1/3)*(z0/zt)) * sqrt(z0/zt)] *)
Definition IntegrationConstant_spec {L : Libm} (zt z0 theta0 : float) : float :=
  ((fcos theta0 - (1 / 3) * (z0 / zt)) * PrimFloat.sqrt (z0 / zt))%float.

(** ** The values the driver computes

    The binary64 value of line 89, and the point and heading after [k]
    iterations of the loop: closed forms of what [plot_flight_path] leaves
    in its arrays, proved equal to it below. *)
Definition integration_constant_value {L : Libm} (zt z0 theta0 : float) : float :=
  ((fcos theta0 - 1 / 3 * z0 / zt) * fpow (z0 / zt) 0.5)%float.

Definition advance {L : Libm} (zt C : float) (p : float * float * float)
    : float * float * float :=
  let '(x, z, theta) := p in
  let normal :=
    (fcos (theta + numpy_pi / 2), - fsin (theta + numpy_pi / 2))%float in
  let R := CurvatureRadius_spec z zt C in
  let center := (x + normal.1 * R, z + normal.2 * R)%float in
  let dtheta := (1 / R)%float in
  let new := rotate x z center.1 center.2 dtheta in
  (new.1, new.2, (theta + dtheta)%float).

Definition trajectory {L : Libm} (zt z0 theta0 : float) (k : nat)
    : float * float * float :=
  Nat.iter k (advance zt (integration_constant_value zt z0 theta0))
    (0%float, z0, theta0).

Definition xs_of {L : Libm} (zt z0 theta0 : float) (k : nat) : float :=
  (trajectory zt z0 theta0 k).1.1.
Definition zs_of {L : Libm} (zt z0 theta0 : float) (k : nat) : float :=
  (trajectory zt z0 theta0 k).1.2.
Definition theta_of {L : Libm} (zt z0 theta0 : float) (k : nat) : float :=
  (trajectory zt z0 theta0 k).2.

(** ** A tabulated C library

    Correctly rounded values at the few arguments the examples below use,
    NaN elsewhere.  It shows that the hypotheses made on a [Libm] hold of
    some library, and lets the examples compute. *)
Definition table_libm : Libm := {|
  fcos a :=
    if (a =? 0)%float then 1%float
    else if (a =? 1)%float then 0x1.14a280fb5068cp-1%float
    else nan;
  fsin a :=
    if (a =? 0)%float then 0%float
    else if (a =? 1)%float then 0x1.aed548f090ceep-1%float
    else nan;
  fpow a b :=
    if (a =? 1)%float then 1%float
    else if (a =? neg_infinity)%float then infinity
    else if (b =? 0.5)%float then PrimFloat.sqrt a
    else nan;
  float_pow a b := Raise OverflowError
|}.

(** [f] is [c] or one of its two neighbours: a library accurate to one unit
    in the last place returns such a value where the exact result rounds
    to [c]. *)
Definition near (c f : float) : Prop :=
  f = next_down c \/ f = c \/ f = next_up c.

(** cos 1 = 0.5403023058681398..., sin 1 = 0.8414709848078965... *)
Definition cos_sin_at_one (L : Libm) : Prop :=
  near 0x1.14a280fb5068cp-1%float (fcos 1%float) /\
  near 0x1.aed548f090ceep-1%float (fsin 1%float).

(** Finite and not zero. *)
Definition finite_nonzero (f : float) : bool :=
  is_finite f && negb (is_zero f).

(** The same binary64 value, or two zeros of whatever signs. *)
Definition same_number (a b : float) : Prop :=
  a = b \/ (is_zero a = true /\ is_zero b = true).

(** [pow(q, 0.5)] is the correctly rounded square root of [q] or one of
    its two neighbours. *)
Definition pow_half_near_sqrt (L : Libm) (q : float) : Prop :=
  near (PrimFloat.sqrt q) (fpow q 0.5%float).

(** An array of length [n] whose entries up to index [k] are [f 0 .. f k]
    and whose other entries are still the zeros of [numpy.zeros]. *)
Definition filled (n : nat) (f : nat -> float) (k : nat) : list float :=
  map f (seq 0 (S k)) ++ replicate (n - S k) 0%float.

(** The variable [theta] after [k] iterations: the argument as it was
    passed, then a NumPy scalar. *)
Definition heading {L : Libm} (zt z0 theta0 : obj) (k : nat) : obj :=
  match k with
  | 0 => theta0
  | S _ => NpFloat (theta_of (fl zt) (fl z0) (fl theta0) k)
  end.

(** ** One step of the marching loop, as a function

    Lines 96, 98 and 100 with [R] and [dtheta] given: the normal, the
    centre of rotation and the new point.  They use only operations that
    cannot raise, so they are read over binary64 values and over the real
    numbers like [rotate]; [half_pi] stands for [numpy.pi/2.]. *)
Definition normal_of {A : Type} `{Arith A} (half_pi theta : A) : A * A :=
  (numpy_cos (theta + half_pi), - numpy_sin (theta + half_pi))%ar.

Definition center_of {A : Type} `{Arith A} (half_pi x z theta R : A) : A * A :=
  let normal := normal_of half_pi theta in
  ((x + normal.1 * R)%ar, (z + normal.2 * R)%ar).

Definition arc_step {A : Type} `{Arith A} (half_pi x z theta R dtheta : A)
    : A * A :=
  let center := center_of half_pi x z theta R in
  rotate x z center.1 center.2 dtheta.

(** What C11 Annex F fixes of [pow] at zeros and infinities, for the
    exponents of the script (positive and not odd integers). *)
Record PowLimits (L : Libm) : Prop := {
  pow_infinity_half' : fpow infinity 0.5%float = infinity;
  pow_neg_infinity_half' : fpow neg_infinity 0.5%float = infinity;
  pow_zero : fpow 0%float 1.5%float = 0%float;
  pow_neg_zero : fpow (-0)%float 1.5%float = 0%float
}.

(** The tabulated library with [pow] tabulated at zero and at
    [(4, 1.5)] as well. *)
Definition limits_libm : Libm := {|
  fcos := fcos (Libm := table_libm);
  fsin := fsin (Libm := table_libm);
  fpow a b :=
    if (a =? 0)%float then 0%float
    else if (a =? 4)%float && (b =? 1.5)%float then 8%float
    else fpow (Libm := table_libm) a b;
  float_pow := float_pow (Libm := table_libm)
|}.

(** CPython's [float.__pow__] returns [1.0] for the base [1.0] whatever
    the exponent ([float_pow] of floatobject.c: 1**w is 1). *)
Definition pow_one_builtin (L : Libm) : Prop :=
  forall y : float, float_pow 1%float y = Ok (PyFloat 1).

(** The tabulated library with CPython's [**] tabulated at the base 1. *)
Definition builtin_libm : Libm := {|
  fcos := fcos (Libm := table_libm);
  fsin := fsin (Libm := table_libm);
  fpow := fpow (Libm := table_libm);
  float_pow a b :=
    if (a =? 1)%float then Ok (PyFloat 1)
    else float_pow (Libm := table_libm) a b
|}.

(** ** The process around a call

    What a call of [plot_flight_path] reads and writes besides its
    arguments: NumPy's floating-point error state, the arrays of the
    process, and pyplot. *)

(** The [divide] entry of NumPy's error state ([numpy.geterr()]), in the
    modes ['ignore'] and ['raise'].  The other entries are taken to be at
    ['ignore'], where line 7 puts them. *)
Inductive err_mode : Set :=
  | ErrIgnore
  | ErrRaise.

(** IEEE 754: a division signals divide-by-zero when a finite nonzero
    number is divided by a zero. *)
Definition signals_divide (u v : float) : bool :=
  finite_nonzero u && is_zero v.

(** [a / b] under the mode [p]: CPython's on two builtin floats, which no
    NumPy setting reaches; NumPy's otherwise, which raises
    [FloatingPointError] in the mode ['raise'] when the division signals
    divide-by-zero. *)
Definition py_truediv_under {L : Libm} (p : err_mode) (a b : obj)
    : result obj :=
  match p with
  | ErrIgnore => py_truediv a b
  | ErrRaise =>
      match a, b with
      | PyFloat _, PyFloat _ => py_truediv a b
      | _, _ =>
          if signals_divide (fl a) (fl b) then Raise FloatingPointError
          else Ok (NpFloat (fl a / fl b))
      end
  end.

Section UnderPolicy.
Context {L : Libm}.
Context (p : err_mode).
Local Open Scope st_scope.

(** The functions of the script with every [/] read under [p].  The other
    operations are as before: [+], [-], [*], [cos] and [sin] never signal
    divide-by-zero, and [**] does so only for a zero base with a negative
    exponent, while the script's exponents are [.5] and [1.5]. *)
Definition radius_of_curvature_under (z zt C : obj) : result obj :=
  (do third <- py_truediv_under p (PyFloat 1) (PyFloat 3);
   do half_C <- py_truediv_under p C (PyFloat 2);
   do ratio <- py_truediv_under p zt z;
   do power <- py_pow ratio (PyFloat 1.5);
   py_truediv_under p zt (py_sub third (py_mul half_C power)))%py.

Definition loop_body_under (zt : obj) (i : nat) (s : locals) : M locals :=
  do q1 <- lift (py_truediv_under p (PyFloat numpy_pi) (PyFloat 2));
  do q2 <- lift (py_truediv_under p (PyFloat numpy_pi) (PyFloat 2));
  let normal :=
    (numpy_cos (v_theta s + q1)%ar, (- numpy_sin (v_theta s + q2))%ar) in
  do z_prev <- getitem (v_z s) (i - 1);
  do R <- lift (radius_of_curvature_under z_prev zt (v_C s));
  do x_prev <- getitem (v_x s) (i - 1);
  do z_prev <- getitem (v_z s) (i - 1);
  let center :=
    ((x_prev + normal.1 * R)%ar, (z_prev + normal.2 * R)%ar) in
  do dtheta <- lift (py_truediv_under p (v_ds s) R);
  do x_prev <- getitem (v_x s) (i - 1);
  do z_prev <- getitem (v_z s) (i - 1);
  let new := rotate x_prev z_prev center.1 center.2 dtheta in
  setitem (v_x s) i new.1 ;;
  setitem (v_z s) i new.2 ;;
  ret (Locals (v_z s) (v_x s) (v_theta s + dtheta)%ar (v_C s) (v_ds s)).

Definition integration_constant_under (z : loc) (zt theta : obj) : M obj :=
  let c := numpy_cos theta in
  do third <- lift (py_truediv_under p (PyFloat 1) (PyFloat 3));
  do z_0 <- getitem z 0;
  do t <- lift (py_truediv_under p (third * z_0)%ar zt);
  let left := (c - t)%ar in
  do z_0 <- getitem z 0;
  do ratio <- lift (py_truediv_under p z_0 zt);
  do root <- lift (py_pow ratio (PyFloat 0.5));
  ret (left * root)%ar.

Definition setup_under (zt z0 theta0 : obj) : M locals :=
  do z <- numpy_zeros N;
  do x <- numpy_zeros N;
  setitem z 0 z0 ;;
  setitem x 0 (PyFloat 0) ;;
  let theta := theta0 in
  do C <- integration_constant_under z zt theta;
  let ds := PyFloat 1 in
  ret (Locals z x theta C ds).

Definition plot_flight_path_under (zt z0 theta0 : obj) : M locals :=
  do s <- setup_under zt z0 theta0;
  for_each (seq 1 (N - 1)) (loop_body_under zt) s.
End UnderPolicy.

(** The calls the script makes to pyplot (lines 104-111), with the
    arguments that depend on the run: the two arrays handed to [plot], the
    three numbers formatted into its label and the number formatted into
    the title.  The literal arguments ([figsize], colours, font sizes, the
    format strings) are left out. *)
Inductive pyplot_call : Set :=
  | Figure
  | Plot (xs ys : list float) (zt z_0 theta0 : float)
  | Axis_equal
  | Title (C : float)
  | Xlabel
  | Ylabel
  | Legend
  | Show.

(** The state of the process a call acts on.  pyplot is represented by the
    calls made to it so far, each taken to return; what Matplotlib does
    with them (its figures, the window, blocking in [show]) is not
    modelled. *)
Record world : Set := World {
  np_divide : err_mode;
  arrays : store;
  pyplot_calls : list pyplot_call
}.

Definition W (A : Type) : Type := world -> result (A * world).

Definition wbind {A B} (m : W A) (k : A -> W B) : W B :=
  fun w =>
    match m w with
    | Ok (a, w') => k a w'
    | Raise e => Raise e
    end.

Declare Scope world_scope.
Delimit Scope world_scope with world.
Notation "'do' v <- m ; k" := (wbind m (fun v => k))
  (at level 10, v name, m at level 100, k at level 200) : world_scope.
Notation "m ;; k" := (wbind m (fun _ => k))
  (at level 100, k at level 200, right associativity) : world_scope.

(** A computation on the arrays, run under the error mode of the process. *)
Definition numpy_run {A} (m : err_mode -> M A) : W A :=
  fun w =>
    match m (np_divide w) (arrays w) with
    | Ok (a, h) => Ok (a, World (np_divide w) h (pyplot_calls w))
    | Raise e => Raise e
    end.

(** A call to pyplot. *)
Definition pyplot (c : pyplot_call) : W unit :=
  fun w => Ok (tt, World (np_divide w) (arrays w) (pyplot_calls w ++ [c])).

(** The contents of the array a variable names. *)
Definition array_value (a : loc) : M (list float) :=
  fun h => Ok (default [] (h !! a), h).

(** ** A call of [plot_flight_path], plotting included (lines 62-111)

    The function returns [None]; what it computed is in what it hands to
    pyplot. *)
Definition plot_flight_path_call {L : Libm} (zt z0 theta0 : obj) : W unit :=
  (do s <- numpy_run (fun p => plot_flight_path_under p zt z0 theta0);
   (* pyplot.figure(figsize=(10,6)) *)
   pyplot Figure ;;
   (* pyplot.plot(x, -z, ..., label="..." % (zt, z[0], theta0)) *)
   do xs <- numpy_run (fun _ => array_value (v_x s));
   do zs <- numpy_run (fun _ => array_value (v_z s));
   do z_0 <- numpy_run (fun _ => getitem (v_z s) 0);
   pyplot (Plot xs (map PrimFloat.opp zs) (fl zt) (fl z_0) (fl theta0)) ;;
   pyplot Axis_equal ;;
   (* pyplot.title("Flight path for $C$ = %.3f" % C, fontsize=18) *)
   pyplot (Title (fl (v_C s))) ;;
   pyplot Xlabel ;;
   pyplot Ylabel ;;
   pyplot Legend ;;
   pyplot Show)%world.

(** What a call hands to pyplot, from the closed forms of the values. *)
Definition plot_calls {L : Libm} (zt z0 theta0 : float) : list pyplot_call :=
  [ Figure;
    Plot (map (xs_of zt z0 theta0) (seq 0 N))
         (map PrimFloat.opp (map (zs_of zt z0 theta0) (seq 0 N)))
         zt z0 theta0;
    Axis_equal;
    Title (integration_constant_value zt z0 theta0);
    Xlabel; Ylabel; Legend; Show ].

(** * Facts about binary64 arithmetic

    Proved from the specification of the primitive operations
    ([FloatAxioms]). *)
Section FloatFacts.
Local Open Scope float_scope.

Lemma finite_nonzero_spec (f : float) :
  finite_nonzero f = true -> exists s m e, Prim2SF f = S754_finite s m e.
Proof.
  unfold finite_nonzero, is_finite, is_nan, is_infinity, is_zero.
  rewrite !FloatAxioms.eqb_spec, abs_spec.
  destruct (Prim2SF f) as [s|s| |s m e]; cbn; try discriminate.
  - destruct s; discriminate.
  - intros _. eauto.
Qed.

(** A finite nonzero number divided by itself is exactly one. *)
Lemma div_diag (f : float) : finite_nonzero f = true -> f / f = 1.
Proof.
  intros H. destruct (finite_nonzero_spec f H) as (s & m & e & E).
  apply Prim2SF_inj. rewrite div_spec, E.
  unfold SF64div, SFdiv, SFdiv_core_binary.
  rewrite Z.sub_diag. cbn [Zdigits2].
  replace (Z.pos (digits2_pos m) + e - (Z.pos (digits2_pos m) + e))%Z
    with 0%Z by lia.
  change (Z.min (fexp prec emax 0) 0) with (-53)%Z.
  change (0 - -53)%Z with 53%Z. cbv iota.
  rewrite Z.shiftl_mul_pow2 by lia.
  assert (D : Z.div_eucl (Z.pos m * 2 ^ 53) (Z.pos m) = ((2 ^ 53)%Z, 0%Z)).
  { assert (Hq : (Z.pos m * 2 ^ 53 / Z.pos m = 2 ^ 53)%Z)
      by (rewrite Z.mul_comm; apply Z.div_mul; lia).
    assert (Hr : ((Z.pos m * 2 ^ 53) mod Z.pos m = 0)%Z)
      by (rewrite Z.mul_comm; apply Z.mod_mul; lia).
    unfold Z.modulo, Z.div in Hq, Hr.
    destruct (Z.div_eucl (Z.pos m * 2 ^ 53) (Z.pos m)) as [q r].
    congruence. }
  rewrite D.
  assert (NL : new_location (Z.pos m) 0 = loc_Exact).
  { unfold new_location, new_location_even, new_location_odd.
    destruct (Z.even (Z.pos m)); reflexivity. }
  rewrite NL. destruct s; reflexivity.
Qed.

Lemma shr_1_double (p : positive) (r : bool) :
  shr_1 {| shr_m := Z.pos p~0; shr_r := false; shr_s := r |} =
  {| shr_m := Z.pos p; shr_r := false; shr_s := r |}.
Proof. destruct r; reflexivity. Qed.

Lemma SFmul_1_r (s : bool) (m : positive) (e : Z) :
  SpecFloat.bounded prec emax m e = true ->
  SF64mul (S754_finite s m e) (Prim2SF 1) = S754_finite s m e.
Proof.
  unfold SpecFloat.bounded, canonical_mantissa. intros B.
  apply andb_true_iff in B as [Bc Be]. apply Z.eqb_eq in Bc.
  change (Prim2SF 1) with (S754_finite false 4503599627370496 (-52)).
  unfold SF64mul, SFmul. rewrite xorb_false_r.
  rewrite Pos.mul_comm. cbv [Pos.mul].
  unfold binary_round_aux, shr_fexp. cbn [Zdigits2 digits2_pos].
  rewrite !Pos2Z.inj_succ.
  match goal with
  | |- context [fexp _ _ ?a] =>
      replace a with (Z.pos (digits2_pos m) + e)%Z by lia
  end.
  rewrite Bc. replace (e - (e + -52))%Z with 52%Z by lia.
  cbv [shr shr_record_of_loc SpecFloat.iter_pos]. rewrite !shr_1_double.
  cbn [shr_m loc_of_shr_record round_nearest_even Zdigits2].
  replace (e + -52 + 52)%Z with e by lia.
  rewrite Bc, Z.sub_diag. cbn [shr shr_record_of_loc shr_m].
  rewrite Be. reflexivity.
Qed.

(** Multiplying by one is exact. *)
Lemma mul_1_r (f : float) : f * 1 = f.
Proof.
  apply Prim2SF_inj. rewrite mul_spec.
  pose proof (Prim2SF_valid f) as V.
  destruct (Prim2SF f) as [s|s| |s m e];
    try (destruct s; reflexivity); try reflexivity.
  apply SFmul_1_r, V.
Qed.

(** A finite number is a zero or has a mantissa and an exponent. *)
Lemma is_finite_spec (f : float) :
  is_finite f = true ->
  (exists s, Prim2SF f = S754_zero s) \/
  (exists s m e, Prim2SF f = S754_finite s m e).
Proof.
  unfold is_finite, is_nan, is_infinity.
  rewrite !FloatAxioms.eqb_spec, abs_spec.
  destruct (Prim2SF f) as [s|s| |s m e]; cbn; try discriminate.
  - intros _. left. eauto.
  - destruct s; discriminate.
  - intros _. right. eauto.
Qed.

Lemma is_zero_spec (f : float) (s : bool) :
  Prim2SF f = S754_zero s -> is_zero f = true.
Proof.
  intros E. unfold is_zero. rewrite FloatAxioms.eqb_spec, E. reflexivity.
Qed.

(** A finite number times zero is a zero. *)
Lemma mul_0_r_zero (f : float) :
  is_finite f = true -> exists s, Prim2SF (f * 0) = S754_zero s.
Proof.
  intros H. rewrite mul_spec.
  destruct (is_finite_spec f H) as [[s E]|(s & m & e & E)];
    rewrite E; eexists; reflexivity.
Qed.

Lemma opp_mul_0_r_zero (f : float) :
  is_finite f = true -> exists s, Prim2SF (- f * 0) = S754_zero s.
Proof.
  intros H. rewrite mul_spec, opp_spec.
  destruct (is_finite_spec f H) as [[s E]|(s & m & e & E)];
    rewrite E; eexists; reflexivity.
Qed.

(** Adding a zero of either sign to [c] gives the same number. *)
Lemma add_zeros (c f g : float) (s1 s2 : bool) :
  Prim2SF f = S754_zero s1 -> Prim2SF g = S754_zero s2 ->
  same_number (c + f) (c + g).
Proof.
  intros F G.
  destruct (Prim2SF c) as [s|s| |s m e] eqn:C.
  - right.
    split; unfold is_zero; rewrite FloatAxioms.eqb_spec, add_spec, C, ?F, ?G;
      destruct s, s1, s2; reflexivity.
  - left. apply Prim2SF_inj. rewrite !add_spec, C, F, G. reflexivity.
  - left. apply Prim2SF_inj. rewrite !add_spec, C, F, G. reflexivity.
  - left. apply Prim2SF_inj. rewrite !add_spec, C, F, G. reflexivity.
Qed.

(** A zero added to a finite [f], on either side, does not change what
    [c + f] is. *)
Lemma same_number_add_r (c f t : float) (s : bool) :
  is_finite f = true -> Prim2SF t = S754_zero s ->
  same_number (c + (f + t)) (c + f).
Proof.
  intros H T. destruct (is_finite_spec f H) as [[s' E]|(s' & m & e & E)].
  - assert (exists s2, Prim2SF (f + t) = S754_zero s2) as [s2 E2].
    { rewrite add_spec, E, T. destruct s', s; eexists; reflexivity. }
    exact (add_zeros c _ _ _ _ E2 E).
  - left. f_equal. apply Prim2SF_inj. rewrite add_spec, E, T. reflexivity.
Qed.

Lemma same_number_add_l (c f t : float) (s : bool) :
  is_finite f = true -> Prim2SF t = S754_zero s ->
  same_number (c + (t + f)) (c + f).
Proof.
  intros H T. destruct (is_finite_spec f H) as [[s' E]|(s' & m & e & E)].
  - assert (exists s2, Prim2SF (t + f) = S754_zero s2) as [s2 E2].
    { rewrite add_spec, E, T. destruct s', s; eexists; reflexivity. }
    exact (add_zeros c _ _ _ _ E2 E).
  - left. f_equal. apply Prim2SF_inj. rewrite add_spec, E, T. reflexivity.
Qed.

Lemma sub_0_r (f : float) : f - 0 = f.
Proof.
  apply Prim2SF_inj. rewrite sub_spec.
  destruct (Prim2SF f) as [s|s| |s m e]; try reflexivity;
    destruct s; reflexivity.
Qed.

Lemma same_number_add_0_l (f : float) :
  is_finite f = true -> same_number (0 + f) f.
Proof.
  intros H. destruct (is_finite_spec f H) as [[s E]|(s & m & e & E)].
  - right. split; [|exact (is_zero_spec f s E)].
    unfold is_zero. rewrite FloatAxioms.eqb_spec, add_spec, E.
    destruct s; reflexivity.
  - left. apply Prim2SF_inj. rewrite add_spec, E. reflexivity.
Qed.

Lemma same_number_trans (a b c : float) :
  same_number a b -> same_number b c -> same_number a c.
Proof.
  intros [->|[Ha Hb]] [->|[Hb' Hc]].
  - left. reflexivity.
  - right. split; assumption.
  - right. split; assumption.
  - right. split; assumption.
Qed.
End FloatFacts.

(** * The leaf functions on Python objects *)

(** [rotate] returns NumPy scalars whatever it is given, with the values
    of [rotate] read on the bare binary64 numbers. *)
Lemma rotate_obj {L : Libm} (x z xCenter zCenter angle : obj) :
  rotate x z xCenter zCenter angle =
    (NpFloat (rotate (fl x) (fl z) (fl xCenter) (fl zCenter) (fl angle)).1,
     NpFloat (rotate (fl x) (fl z) (fl xCenter) (fl zCenter) (fl angle)).2).
Proof. destruct x, z, xCenter, zCenter, angle; reflexivity. Qed.

(** As soon as [z] or [zt] is a NumPy scalar, every [/] and [**] of
    [radius_of_curvature] is NumPy's. *)
Lemma radius_np {L : Libm} (z zt C : obj) :
  is_np z || is_np zt = true ->
  radius_of_curvature z zt C =
    Ok (NpFloat (CurvatureRadius_spec (fl z) (fl zt) (fl C))).
Proof.
  intros H. destruct z, zt, C; try discriminate H; reflexivity.
Qed.

Lemma pi_half :
  py_truediv (PyFloat numpy_pi) (PyFloat 2) = Ok (PyFloat (numpy_pi / 2)).
Proof. reflexivity. Qed.

(** One iteration, on objects: the new point and heading are those of
    [advance]. *)
Lemma advance_obj {L : Libm} (zt theta : obj) (C x z : float) :
  let normal :=
    (numpy_cos (theta + PyFloat (numpy_pi / 2)),
     - numpy_sin (theta + PyFloat (numpy_pi / 2)))%ar in
  let R := NpFloat (CurvatureRadius_spec z (fl zt) C) in
  let center := (NpFloat x + normal.1 * R, NpFloat z + normal.2 * R)%ar in
  let dtheta := NpFloat (1 / fl R) in
  let p := advance (fl zt) C (x, z, fl theta) in
  rotate (NpFloat x) (NpFloat z) center.1 center.2 dtheta =
    (NpFloat p.1.1, NpFloat p.1.2)
  /\ (theta + dtheta)%ar = NpFloat p.2.
Proof.
  cbv zeta. rewrite rotate_obj. destruct theta; split; reflexivity.
Qed.

(** * The store *)
Section Store.
Context (h0 : store) (zs xs : list float).

Lemma lookup_z : (h0 ++ [zs; xs]) !! length h0 = Some zs.
Proof. rewrite lookup_app_r by lia. rewrite Nat.sub_diag. reflexivity. Qed.

Lemma lookup_x : (h0 ++ [zs; xs]) !! S (length h0) = Some xs.
Proof.
  rewrite lookup_app_r by lia.
  replace (S (length h0) - length h0) with 1 by lia. reflexivity.
Qed.

Lemma lookup_old (a : nat) : a < length h0 -> (h0 ++ [zs; xs]) !! a = h0 !! a.
Proof. intros. apply lookup_app_l. assumption. Qed.

Lemma insert_z (zs' : list float) :
  <[length h0 := zs']> (h0 ++ [zs; xs]) = h0 ++ [zs'; xs].
Proof. rewrite insert_app_r_alt by lia. rewrite Nat.sub_diag. reflexivity. Qed.

Lemma insert_x (xs' : list float) :
  <[S (length h0) := xs']> (h0 ++ [zs; xs]) = h0 ++ [zs; xs'].
Proof.
  rewrite insert_app_r_alt by lia.
  replace (S (length h0) - length h0) with 1 by lia. reflexivity.
Qed.

Lemma getitem_z (i : nat) (v : float) :
  zs !! i = Some v ->
  getitem (length h0) i (h0 ++ [zs; xs]) = Ok (NpFloat v, h0 ++ [zs; xs]).
Proof.
  intros E. unfold getitem. rewrite lookup_z. cbn. rewrite E. reflexivity.
Qed.

Lemma getitem_x (i : nat) (v : float) :
  xs !! i = Some v ->
  getitem (S (length h0)) i (h0 ++ [zs; xs]) = Ok (NpFloat v, h0 ++ [zs; xs]).
Proof.
  intros E. unfold getitem. rewrite lookup_x. cbn. rewrite E. reflexivity.
Qed.

Lemma setitem_z (i : nat) (v : obj) :
  i < length zs ->
  setitem (length h0) i v (h0 ++ [zs; xs]) =
    Ok (tt, h0 ++ [<[i := fl v]> zs; xs]).
Proof.
  intros Hi. unfold setitem. rewrite lookup_z.
  destruct (decide (i < length zs)); [|lia]. rewrite insert_z. reflexivity.
Qed.

Lemma setitem_x (i : nat) (v : obj) :
  i < length xs ->
  setitem (S (length h0)) i v (h0 ++ [zs; xs]) =
    Ok (tt, h0 ++ [zs; <[i := fl v]> xs]).
Proof.
  intros Hi. unfold setitem. rewrite lookup_x.
  destruct (decide (i < length xs)); [|lia]. rewrite insert_x. reflexivity.
Qed.
End Store.

Lemma filled_length (n : nat) (f : nat -> float) (k : nat) :
  k < n -> length (filled n f k) = n.
Proof.
  intros. unfold filled.
  rewrite length_app, length_map, length_seq, length_replicate. lia.
Qed.

Lemma filled_lookup (n : nat) (f : nat -> float) (k j : nat) :
  j <= k -> filled n f k !! j = Some (f j).
Proof.
  intros. unfold filled.
  rewrite lookup_app_l by (rewrite length_map, length_seq; lia).
  rewrite list_lookup_fmap. rewrite lookup_seq_lt by lia. reflexivity.
Qed.

Lemma filled_insert (n : nat) (f : nat -> float) (k : nat) :
  S k < n -> <[S k := f (S k)]> (filled n f k) = filled n f (S k).
Proof.
  intros. unfold filled.
  rewrite insert_app_r_alt by (rewrite length_map, length_seq; lia).
  rewrite length_map, length_seq, Nat.sub_diag.
  destruct (n - S k) as [|d] eqn:E; [lia|].
  replace (n - S (S k)) with d by lia. cbn [replicate].
  rewrite (seq_S (S k)). rewrite map_app. cbn. rewrite <- app_assoc.
  reflexivity.
Qed.

Lemma filled_zero (n : nat) (f : nat -> float) :
  0 < n -> <[0 := f 0]> (replicate n 0%float) = filled n f 0.
Proof.
  intros. destruct n; [lia|]. unfold filled. cbn.
  rewrite Nat.sub_0_r. reflexivity.
Qed.

Lemma filled_full (n : nat) (f : nat -> float) :
  0 < n -> filled n f (n - 1) = map f (seq 0 n).
Proof.
  intros. unfold filled. replace (S (n - 1)) with n by lia.
  rewrite Nat.sub_diag. cbn [replicate]. apply app_nil_r.
Qed.

Lemma map_seq_lookup (n : nat) (f : nat -> float) (j : nat) :
  j < n -> map f (seq 0 n) !! j = Some (f j).
Proof.
  intros. rewrite list_lookup_fmap. rewrite lookup_seq_lt by lia. reflexivity.
Qed.

(** * The marching loop

    After [k] iterations the store holds the caller's arrays untouched,
    then [z] and [x] filled up to index [k] with the points of
    [trajectory]; [theta] is [heading k] and [C], [ds] are as [setup] left
    them. *)
Section Loop.
Context {L : Libm}.
Context (zt z0 theta0 : obj) (h0 : store).
Let Cv := integration_constant_value (fl zt) (fl z0) (fl theta0).
Let frame (theta : obj) : locals :=
  Locals (length h0) (S (length h0)) theta (NpFloat Cv) (PyFloat 1).
Let zsf := zs_of (fl zt) (fl z0) (fl theta0).
Let xsf := xs_of (fl zt) (fl z0) (fl theta0).
Let heap (k : nat) : store := h0 ++ [filled N zsf k; filled N xsf k].

Lemma loop_body_step (k : nat) (theta : obj) (zs xs : list float)
    (xk zk : float) :
  zs !! k = Some zk -> xs !! k = Some xk ->
  S k < length zs -> S k < length xs ->
  let p := advance (fl zt) Cv (xk, zk, fl theta) in
  loop_body zt (S k) (frame theta) (h0 ++ [zs; xs]) =
    Ok (frame (NpFloat p.2),
        h0 ++ [<[S k := p.1.2]> zs; <[S k := p.1.1]> xs]).
Proof.
  intros Hz Hx Lz Lx p. unfold loop_body, bind.
  rewrite pi_half. cbn [lift v_z v_x v_theta v_C v_ds frame].
  replace (S k - 1) with k by lia.
  rewrite (getitem_z _ _ _ _ _ Hz). cbn [lift].
  rewrite radius_np by reflexivity. cbn [lift].
  rewrite (getitem_x _ _ _ _ _ Hx). cbn [lift].
  rewrite (getitem_z _ _ _ _ _ Hz).
  cbn [lift py_truediv fl].
  rewrite (getitem_x _ _ _ _ _ Hx). cbn [lift].
  rewrite (getitem_z _ _ _ _ _ Hz). cbn [lift].
  rewrite rotate_obj. cbn [fst snd].
  rewrite setitem_x by exact Lx. cbn [lift].
  rewrite setitem_z by exact Lz.
  unfold ret. subst p. unfold advance.
  destruct theta; reflexivity.
Qed.

Lemma heading_fl (k : nat) :
  fl (heading zt z0 theta0 k) = theta_of (fl zt) (fl z0) (fl theta0) k.
Proof. destruct k; reflexivity. Qed.

Lemma trajectory_eta (k : nat) :
  trajectory (fl zt) (fl z0) (fl theta0) k =
    (xsf k, zsf k, fl (heading zt z0 theta0 k)).
Proof.
  rewrite heading_fl. unfold xsf, zsf, xs_of, zs_of, theta_of.
  destruct (trajectory _ _ _ k) as [[a b] c]. reflexivity.
Qed.

Lemma trajectory_S (k : nat) :
  advance (fl zt) Cv (xsf k, zsf k, fl (heading zt z0 theta0 k)) =
    (xsf (S k), zsf (S k), theta_of (fl zt) (fl z0) (fl theta0) (S k)).
Proof.
  rewrite <- trajectory_eta.
  change (advance (fl zt) Cv (trajectory (fl zt) (fl z0) (fl theta0) k))
    with (trajectory (fl zt) (fl z0) (fl theta0) (S k)).
  unfold xsf, zsf, xs_of, zs_of, theta_of.
  destruct (trajectory _ _ _ (S k)) as [[a b] c]. reflexivity.
Qed.

Lemma loop_body_run (k : nat) :
  S k < N ->
  loop_body zt (S k) (frame (heading zt z0 theta0 k)) (heap k) =
    Ok (frame (heading zt z0 theta0 (S k)), heap (S k)).
Proof.
  intros Hk. unfold heap.
  rewrite (loop_body_step k _ _ _ (xsf k) (zsf k)).
  - rewrite trajectory_S. cbn [fst snd].
    rewrite !filled_insert by exact Hk. reflexivity.
  - apply filled_lookup. lia.
  - apply filled_lookup. lia.
  - rewrite filled_length; lia.
  - rewrite filled_length; lia.
Qed.

Lemma for_each_run (m k : nat) :
  k + m < N ->
  for_each (seq (S k) m) (loop_body zt) (frame (heading zt z0 theta0 k))
      (heap k) =
    Ok (frame (heading zt z0 theta0 (k + m)), heap (k + m)).
Proof.
  revert k. induction m as [|m IH]; intros k Hk.
  - rewrite Nat.add_0_r. reflexivity.
  - cbn [seq for_each]. unfold bind. rewrite loop_body_run by lia.
    rewrite IH by lia. rewrite Nat.add_succ_r. reflexivity.
Qed.

Lemma setup_run :
  setup zt z0 theta0 h0 = Ok (frame theta0, heap 0).
Proof.
  unfold setup, bind, numpy_zeros.
  rewrite <- app_assoc. cbn [app]. rewrite length_app. cbn [length].
  rewrite Nat.add_1_r.
  rewrite setitem_z by (rewrite length_replicate; unfold N; lia).
  rewrite setitem_x by (rewrite length_replicate; unfold N; lia).
  change (fl (PyFloat 0)) with (xsf 0). change (fl z0) with (zsf 0).
  rewrite !filled_zero by (unfold N; lia).
  unfold integration_constant, bind.
  change (py_truediv (PyFloat 1) (PyFloat 3)) with (Ok (PyFloat (1 / 3))).
  cbn [lift].
  assert (G : getitem (length h0) 0 (h0 ++ [filled N zsf 0; filled N xsf 0]) =
              Ok (NpFloat (zsf 0), h0 ++ [filled N zsf 0; filled N xsf 0])).
  { apply getitem_z, filled_lookup. lia. }
  rewrite G. cbn [lift py_truediv mul obj_arith py_mul binop fl]. rewrite G.
  cbn [lift py_truediv py_pow fl]. unfold ret. reflexivity.
Qed.

(** [setup] followed by the first [k] iterations. *)
Lemma prefix_run (k : nat) :
  k < N ->
  (do s <- setup zt z0 theta0; for_each (seq 1 k) (loop_body zt) s)%st h0 =
    Ok (frame (heading zt z0 theta0 k), heap k).
Proof.
  intros Hk. unfold bind. rewrite setup_run. apply (for_each_run k 0). lia.
Qed.

(** The whole run. *)
Lemma plot_flight_path_run :
  plot_flight_path zt z0 theta0 h0 =
    Ok (frame (heading zt z0 theta0 (N - 1)),
        h0 ++ [map zsf (seq 0 N); map xsf (seq 0 N)]).
Proof.
  unfold plot_flight_path. rewrite prefix_run by (unfold N; lia).
  unfold heap. rewrite !filled_full by (unfold N; lia). reflexivity.
Qed.
End Loop.

(** * The process around a call *)
Section Process.
Context {L : Libm}.

(** In the mode ['ignore'] the functions are those of the script as read
    above. *)
Lemma plot_flight_path_under_ignore (zt z0 theta0 : obj) :
  plot_flight_path_under ErrIgnore zt z0 theta0 = plot_flight_path zt z0 theta0.
Proof. reflexivity. Qed.

(** In the mode ['raise'] a zero trim depth stops the run at line 89, in
    [1./3.*z[0]/zt]. *)
Lemma setup_under_raise (z0 theta0 : obj) (h : store) :
  finite_nonzero (1 / 3 * fl z0) = true ->
  setup_under ErrRaise (PyFloat 0) z0 theta0 h = Raise FloatingPointError.
Proof.
  intros Hz. unfold setup_under, bind, numpy_zeros.
  rewrite <- app_assoc. cbn [app]. rewrite length_app. cbn [length].
  rewrite Nat.add_1_r.
  rewrite setitem_z by (rewrite length_replicate; unfold N; lia).
  rewrite setitem_x by (rewrite length_replicate; unfold N; lia).
  unfold integration_constant_under, bind.
  change (py_truediv_under ErrRaise (PyFloat 1) (PyFloat 3))
    with (Ok (PyFloat (1 / 3))).
  cbn [lift].
  rewrite (getitem_z _ _ _ 0 (fl z0)) by reflexivity.
  cbn [lift py_truediv_under mul obj_arith py_mul binop fl].
  unfold signals_divide. rewrite Hz. reflexivity.
Qed.

Lemma plot_flight_path_call_run (zt z0 theta0 : obj) (h : store)
    (log : list pyplot_call) :
  plot_flight_path_call zt z0 theta0 (World ErrIgnore h log) =
    Ok (tt,
        World ErrIgnore
          (h ++ [map (zs_of (fl zt) (fl z0) (fl theta0)) (seq 0 N);
                 map (xs_of (fl zt) (fl z0) (fl theta0)) (seq 0 N)])
          (log ++ plot_calls (fl zt) (fl z0) (fl theta0))).
Proof.
  unfold plot_flight_path_call, wbind, numpy_run, pyplot, array_value.
  cbn [np_divide arrays pyplot_calls].
  rewrite plot_flight_path_under_ignore, plot_flight_path_run.
  cbn [np_divide arrays pyplot_calls v_x v_z v_C fl].
  rewrite lookup_x, lookup_z. cbn [default].
  rewrite (getitem_z _ _ _ 0 (fl z0)) by reflexivity.
  cbn [np_divide arrays pyplot_calls fl].
  rewrite <- !app_assoc. reflexivity.
Qed.
End Process.

(** * The properties of the specification *)

(** The hypotheses made on the C library hold of the tabulated one. *)
Lemma table_libm_annex_f : AnnexF table_libm.
Proof. split; reflexivity. Qed.

Lemma table_libm_cos_sin_at_one : cos_sin_at_one table_libm.
Proof. split; right; left; reflexivity. Qed.

Lemma table_libm_pow_half : pow_half_near_sqrt table_libm 3.
Proof. right; left; reflexivity. Qed.

(** Started at trim depth with a level heading ([z0 = zt = 1],
    [theta0 = 0]) the constant is the binary64 number nearest 2/3. *)
Example integration_constant_at_trim (L : Libm) :
  AnnexF L ->
  integration_constant_value 1 1 0 = 0x1.5555555555556p-1%float.
Proof.
  intros A. unfold integration_constant_value.
  change (1 / 1)%float with 1%float.
  rewrite (cos_zero L A), (pow_one L A). reflexivity.
Qed.

(** ** CurvatureRadius *)

(** C1, as amended.  For all floats [zt] and [C], builtin or NumPy, and
    every [z], as soon as [z] or [zt] is a NumPy float64 (the integrator
    always passes an array element for [z]), [radius_of_curvature] raises
    nothing and returns, as a NumPy scalar, exactly
    [zt / (1/3 - (C/2) * (zt/z)^1.5)] evaluated in IEEE binary64
    arithmetic, NaN and infinities included. *)
Theorem radius_of_curvature_ieee (L : Libm) (z zt C : obj) :
  is_np z || is_np zt = true ->
  radius_of_curvature z zt C =
    Ok (NpFloat (CurvatureRadius_spec (fl z) (fl zt) (fl C))).
Proof.
  intros H. unfold radius_of_curvature, CurvatureRadius_spec.
  destruct z as [z|z], zt as [zt|zt]; try discriminate H;
    destruct C as [C|C]; reflexivity.
Qed.

(** The theorem at [z = numpy.float64(2)], [zt = 1.0], [C = 0.5]. *)
Lemma radius_of_curvature_ieee_witness :
  is_np (NpFloat 2) || is_np (PyFloat 1) = true /\
  radius_of_curvature (L := table_libm) (NpFloat 2) (PyFloat 1) (NpFloat 0.5) =
    Ok (NpFloat (CurvatureRadius_spec (L := table_libm) 2 1 0.5)).
Proof.
  split; [reflexivity|].
  apply (radius_of_curvature_ieee table_libm
           (NpFloat 2) (PyFloat 1) (NpFloat 0.5)).
  reflexivity.
Defined.

(** C1 as stated fails on builtin floats:
    [radius_of_curvature(0.0, 1.0, 1.0)] raises [ZeroDivisionError] at
    [zt/z], whatever the C library is. *)
Lemma radius_of_curvature_builtin_raises :
  exists z zt C : obj,
    forall L : Libm, radius_of_curvature z zt C = Raise ZeroDivisionError.
Proof.
  exists (PyFloat 0), (PyFloat 1), (PyFloat 1). intros L. reflexivity.
Qed.

(** The hypotheses made on CPython's [**] hold of a tabulated library. *)
Lemma builtin_libm_annex_f : AnnexF builtin_libm.
Proof. split; reflexivity. Qed.

Lemma builtin_libm_pow_one : pow_one_builtin builtin_libm.
Proof. intros y. reflexivity. Qed.

Lemma finite_nonzero_eqb (f : float) :
  finite_nonzero f = true -> (f =? 0)%float = false.
Proof.
  unfold finite_nonzero, is_zero, zero. intros H.
  apply andb_prop in H as [_ H]. apply negb_true_iff in H. exact H.
Qed.

(** On two builtin floats every [/] and the [**] are CPython's; at trim
    they meet no zero divisor, and [**] is [1.0 ** 1.5]. *)
Lemma radius_at_trim_builtin {L : Libm} (zt : float) (C : obj) :
  pow_one_builtin L -> fl C = 0%float -> finite_nonzero zt = true ->
  radius_of_curvature (PyFloat zt) (PyFloat zt) C =
    Ok ((if is_np C then NpFloat else PyFloat) (zt / (1 / 3))%float).
Proof.
  intros P HC Hf. unfold radius_of_curvature.
  change (py_truediv (PyFloat 1) (PyFloat 3)) with (Ok (PyFloat (1 / 3))).
  cbn [rbind].
  destruct C as [c|c]; cbn [fl] in HC; subst c;
    cbn [py_truediv rbind fl]; rewrite (finite_nonzero_eqb zt Hf);
    cbn [rbind]; rewrite div_diag by exact Hf;
    cbn [py_pow]; rewrite (P 1.5%float); reflexivity.
Qed.

(** C8, as amended.  When [z] and [zt] hold the same finite nonzero value
    and [C] is zero, the radius is exactly [zt] divided by the binary64
    number nearest to one third, whether the call is made with builtin
    floats or with NumPy scalars: [zt/z] is exactly 1 and the [C] term
    vanishes.  The result is a NumPy scalar as soon as one argument is. *)
Theorem radius_at_trim (L : Libm) (z zt C : obj) :
  AnnexF L -> pow_one_builtin L ->
  fl z = fl zt -> fl C = 0%float -> finite_nonzero (fl zt) = true ->
  radius_of_curvature z zt C =
    Ok ((if is_np z || is_np zt || is_np C then NpFloat else PyFloat)
          (fl zt / (1 / 3))%float).
Proof.
  intros A P Hz HC Hf. destruct (is_np z || is_np zt) eqn:Hnp.
  - rewrite radius_np by exact Hnp. cbn [orb].
    unfold CurvatureRadius_spec. rewrite Hz, HC, div_diag by exact Hf.
    rewrite (pow_one L A). reflexivity.
  - destruct z as [a|a], zt as [b|b]; try discriminate Hnp.
    cbn [fl] in Hz, Hf. subst a. cbn [is_np orb fl].
    apply radius_at_trim_builtin; assumption.
Qed.

(** The theorem for the direct call on builtin floats at [zt = 1], where
    the quotient is exactly 3. *)
Lemma radius_at_trim_witness :
  fl (PyFloat 1) = fl (PyFloat 1) /\ fl (PyFloat 0) = 0%float /\
  finite_nonzero (fl (PyFloat 1)) = true /\
  radius_of_curvature (L := builtin_libm) (PyFloat 1) (PyFloat 1) (PyFloat 0) =
    Ok (PyFloat 3).
Proof.
  do 3 (split; [reflexivity|]).
  exact (radius_at_trim builtin_libm (PyFloat 1) (PyFloat 1) (PyFloat 0)
           builtin_libm_annex_f builtin_libm_pow_one eq_refl eq_refl eq_refl).
Defined.

(** C8 as stated fails: at [zt = 1 + 3 * 2^-52] the radius is
    [0x1.8000000000005p+1] while [3*zt] is [0x1.8000000000004p+1]. *)
Lemma radius_at_trim_not_three_zt :
  exists zt : float,
    finite_nonzero zt = true /\
    forall L : Libm, AnnexF L ->
      exists R : obj,
        radius_of_curvature (NpFloat zt) (PyFloat zt) (NpFloat 0) = Ok R /\
        (fl R =? 3 * zt)%float = false.
Proof.
  exists 0x1.0000000000003p+0%float. split; [reflexivity|].
  intros L A. eexists. split; [apply radius_np; reflexivity|].
  cbn [fl]. unfold CurvatureRadius_spec.
  change (0x1.0000000000003p+0 / 0x1.0000000000003p+0)%float with 1%float.
  rewrite (pow_one L A). reflexivity.
Qed.

(** ** RotatePoint *)

(** C2, as amended.  For all floats, [rotate] returns the pair
    [(xCenter + (dx*cos(angle) + dz*sin(angle)),
      zCenter + ((-dx)*sin(angle) + dz*cos(angle)))]
    with [dx = x - xCenter] and [dz = z - zCenter]: plus on the x
    component, minus on the z component, the rotated offset summed first
    and the centre added last.  Over the real numbers this is the pair the
    specification writes. *)
Theorem rotate_formula :
  (forall (L : Libm) (x z xCenter zCenter angle : obj),
     let dx := (fl x - fl xCenter)%float in
     let dz := (fl z - fl zCenter)%float in
     rotate x z xCenter zCenter angle =
       (NpFloat (fl xCenter + (dx * fcos (fl angle) + dz * fsin (fl angle))),
        NpFloat
          (fl zCenter + ((- dx) * fsin (fl angle) + dz * fcos (fl angle)))))
  /\ (forall x z xCenter zCenter angle : R,
        rotate x z xCenter zCenter angle =
          RotatePoint_spec x z xCenter zCenter angle).
Proof.
  split.
  - intros. rewrite rotate_obj. reflexivity.
  - intros. unfold rotate, RotatePoint_spec.
    cbv [fst snd add sub mul neg numpy_cos numpy_sin real_arith].
    f_equal; ring.
Qed.

(** C2 as stated fails in binary64: with centre [(2^60, 2^60)], point
    [(2^60 + 256, 2^60 + 256)] and angle 1, the x component is
    [2^60 + 256] while [xCenter + dx*cos(angle) + dz*sin(angle)], summed
    left to right, is [2^60 + 512], for every C library accurate to one
    unit in the last place at 1. *)
Lemma rotate_grouping_differs :
  exists x z xCenter zCenter angle : float,
    forall L : Libm, cos_sin_at_one L ->
      (fl (rotate (NpFloat x) (NpFloat z) (NpFloat xCenter) (NpFloat zCenter)
             (NpFloat angle)).1
       =? (RotatePoint_spec x z xCenter zCenter angle).1)%float = false.
Proof.
  exists 0x1.0000000000001p+60%float, 0x1.0000000000001p+60%float,
    0x1p+60%float, 0x1p+60%float, 1%float.
  intros L [Hc Hs]. rewrite rotate_obj. unfold rotate, RotatePoint_spec.
  cbv [fst snd fl add sub mul neg numpy_cos numpy_sin float_arith].
  destruct Hc as [-> | [-> | ->]], Hs as [-> | [-> | ->]];
    vm_compute; reflexivity.
Qed.

(** C7, as amended.  Rotation by angle 0 is the identity over the real
    numbers.  In binary64 the rotation itself is exact at angle 0 and only
    the two translations round: whenever the offsets [x - xCenter] and
    [z - zCenter] are finite the result is
    [(xCenter + (x - xCenter), zCenter + (z - zCenter))], and for a centre
    at the origin it is [(x, z)], in both cases up to the sign of a
    zero. *)
Theorem rotate_by_zero :
  (forall x z xCenter zCenter : R, rotate x z xCenter zCenter 0%R = (x, z))
  /\ (forall L : Libm, AnnexF L ->
      forall x z xCenter zCenter angle : obj,
        fl angle = 0%float ->
        is_finite (fl x - fl xCenter) = true ->
        is_finite (fl z - fl zCenter) = true ->
        let r := rotate x z xCenter zCenter angle in
        same_number (fl r.1) (fl xCenter + (fl x - fl xCenter)) /\
        same_number (fl r.2) (fl zCenter + (fl z - fl zCenter)))
  /\ (forall L : Libm, AnnexF L ->
      forall x z angle : obj,
        fl angle = 0%float ->
        is_finite (fl x) = true -> is_finite (fl z) = true ->
        let r := rotate x z (PyFloat 0) (PyFloat 0) angle in
        same_number (fl r.1) (fl x) /\ same_number (fl r.2) (fl z)).
Proof.
  assert (Float : forall L : Libm, AnnexF L ->
      forall x z xCenter zCenter angle : obj,
        fl angle = 0%float ->
        is_finite (fl x - fl xCenter) = true ->
        is_finite (fl z - fl zCenter) = true ->
        let r := rotate x z xCenter zCenter angle in
        same_number (fl r.1) (fl xCenter + (fl x - fl xCenter)) /\
        same_number (fl r.2) (fl zCenter + (fl z - fl zCenter))).
  { intros L A x z xc zc angle Ha Hx Hz. cbv zeta. rewrite rotate_obj.
    unfold rotate.
    cbv [fst snd fl add sub mul neg numpy_cos numpy_sin float_arith].
    fold (fl x) (fl z) (fl xc) (fl zc) (fl angle).
    rewrite Ha, (cos_zero L A), (sin_zero L A), !mul_1_r.
    destruct (mul_0_r_zero _ Hz) as [s1 E1].
    destruct (opp_mul_0_r_zero _ Hx) as [s2 E2].
    split.
    - exact (same_number_add_r _ _ _ s1 Hx E1).
    - exact (same_number_add_l _ _ _ s2 Hz E2). }
  split; [|split].
  - intros. unfold rotate.
    cbv [fst snd add sub mul neg numpy_cos numpy_sin real_arith].
    rewrite cos_0, sin_0. f_equal; ring.
  - exact Float.
  - intros L A x z angle Ha Hx Hz.
    pose proof (Float L A x z (PyFloat 0) (PyFloat 0) angle Ha) as F.
    cbn [fl] in F. rewrite !sub_0_r in F. destruct (F Hx Hz) as [F1 F2].
    split; eapply same_number_trans;
      eauto using same_number_add_0_l.
Qed.

(** The binary64 part of the theorem at the point [(3, 5)] and the centre
    [(1, 2)], where both translations are exact. *)
Lemma rotate_by_zero_witness :
  is_finite (3 - 1) = true /\ is_finite (5 - 2) = true /\
  let r :=
    rotate (H := @obj_arith table_libm)
      (PyFloat 3) (PyFloat 5) (PyFloat 1) (PyFloat 2) (PyFloat 0) in
  same_number (fl r.1) (1 + (3 - 1)) /\ same_number (fl r.2) (2 + (5 - 2)).
Proof.
  split; [reflexivity|]. split; [reflexivity|].
  apply (proj1 (proj2 rotate_by_zero) table_libm table_libm_annex_f
           (PyFloat 3) (PyFloat 5) (PyFloat 1) (PyFloat 2) (PyFloat 0));
    reflexivity.
Defined.

(** C7 as stated fails: rotating the finite point [(1, 0)] about the
    finite centre [(2^60, 0)] by angle 0 returns x = 0, not 1, since
    [1 - 2^60] rounds to [-2^60]. *)
Lemma rotate_by_zero_not_identity :
  exists x z xCenter zCenter : float,
    is_finite x && is_finite z && is_finite xCenter && is_finite zCenter
      = true /\
    forall L : Libm, AnnexF L ->
      (fl (rotate (PyFloat x) (PyFloat z) (PyFloat xCenter) (PyFloat zCenter)
             (PyFloat 0)).1 =? x)%float = false.
Proof.
  exists 1%float, 0%float, 0x1p+60%float, 0%float.
  split; [reflexivity|]. intros L A. rewrite rotate_obj. unfold rotate.
  cbv [fst snd fl add sub mul neg numpy_cos numpy_sin float_arith].
  rewrite (cos_zero L A), (sin_zero L A). reflexivity.
Qed.

(** C10.  Over the real numbers [rotate] preserves the distance to the
    centre:
    [(xNew - xCenter)^2 + (zNew - zCenter)^2 =
     (x - xCenter)^2 + (z - zCenter)^2]. *)
Theorem rotate_preserves_distance (x z xCenter zCenter angle : R) :
  let p := rotate x z xCenter zCenter angle in
  ((p.1 - xCenter) ^ 2 + (p.2 - zCenter) ^ 2 =
   (x - xCenter) ^ 2 + (z - zCenter) ^ 2)%R.
Proof.
  unfold rotate. cbv [fst snd add sub mul neg numpy_cos numpy_sin real_arith].
  pose proof (sin2_cos2 angle) as E. unfold Rsqr in E.
  transitivity
    (((x - xCenter) ^ 2 + (z - zCenter) ^ 2) *
     (sin angle * sin angle + cos angle * cos angle))%R.
  - ring.
  - rewrite E. ring.
Qed.

(** Rotation periodicity: over the real numbers a rotation by [2*PI]
    returns the point it was given. *)
Theorem rotate_full_turn (x z xCenter zCenter : R) :
  rotate x z xCenter zCenter (2 * PI)%R = (x, z).
Proof.
  unfold rotate. cbv [fst snd add sub mul neg numpy_cos numpy_sin real_arith].
  rewrite cos_2PI, sin_2PI. f_equal; ring.
Qed.

(** The handedness of the sign pattern: over the real numbers a positive
    angle takes the point [(1, 0)] about the origin to
    [(cos angle, - sin angle)], that is towards smaller depth. *)
Example rotate_unit_x (angle : R) :
  rotate 1%R 0%R 0%R 0%R angle = (cos angle, (- sin angle)%R).
Proof.
  unfold rotate. cbv [fst snd add sub mul neg numpy_cos numpy_sin real_arith].
  f_equal; ring.
Qed.

(** ** TrajectoryIntegrator *)

(** The run returns, and its arrays are the last two of the store. *)
Ltac run_and_read :=
  split; [apply plot_flight_path_run|];
  cbn [v_C v_x v_z v_ds v_theta];
  split; [apply lookup_x|]; split; [apply lookup_z|].

(** C3, as amended.  For every input the integration constant is computed
    once, by [setup], as
    [C = (cos(theta0) - ((1/3)*z0)/zt) * (z0/zt)**0.5] in binary64
    arithmetic, [**0.5] being the library's power function; it has this
    value after every number of iterations of the loop and at the end of
    the run. *)
Theorem integration_constant_fixed (L : Libm) (zt z0 theta0 : obj)
    (h : store) :
  let value := integration_constant_value (fl zt) (fl z0) (fl theta0) in
  (forall k : nat, k < N ->
     exists (s : locals) (h' : store),
       (do s0 <- setup zt z0 theta0;
        for_each (seq 1 k) (loop_body zt) s0)%st h = Ok (s, h') /\
       v_C s = NpFloat value)
  /\ (exists (s : locals) (h' : store),
        plot_flight_path zt z0 theta0 h = Ok (s, h') /\
        v_C s = NpFloat value).
Proof.
  intros value. split.
  - intros k Hk. rewrite prefix_run by exact Hk. eauto.
  - rewrite plot_flight_path_run. eauto.
Qed.

(** The theorem after three iterations from [zt = z0 = 1], [theta0 = 0]. *)
Lemma integration_constant_fixed_witness :
  3 < N /\
  exists (s : locals) (h' : store),
    (do s0 <- setup (L := table_libm) (PyFloat 1) (PyFloat 1) (PyFloat 0);
     for_each (seq 1 3) (loop_body (L := table_libm) (PyFloat 1)) s0)%st []
      = Ok (s, h') /\
    v_C s = NpFloat (integration_constant_value (L := table_libm) 1 1 0).
Proof.
  split; [unfold N; lia|].
  apply (integration_constant_fixed table_libm
           (PyFloat 1) (PyFloat 1) (PyFloat 0) []).
  unfold N; lia.
Defined.

(** C3 as stated fails, in two ways.  At [zt = 1.3], [z0 = 3.9],
    [theta0 = 0] the code's [C] is about [3.8e-16] while
    [(cos(theta0) - (1/3)*(z0/zt)) * sqrt(z0/zt)] is 0: [((1/3)*z0)/zt]
    and [(1/3)*(z0/zt)] round differently.  At [zt = 0], [z0 = -1],
    [theta0 = 0] the code's [C] is [+inf], since [pow(-inf, 0.5)] is
    [+inf], while the formula with [sqrt] gives NaN. *)
Lemma integration_constant_differs :
  (exists zt z0 theta0 : float,
     forall (L : Libm) (h : store),
       AnnexF L -> pow_half_near_sqrt L (z0 / zt) ->
       exists (s : locals) (h' : store),
         plot_flight_path (PyFloat zt) (PyFloat z0) (PyFloat theta0) h
           = Ok (s, h') /\
         (fl (v_C s) =? IntegrationConstant_spec zt z0 theta0)%float = false)
  /\ (forall (L : Libm) (h : store), AnnexF L ->
       exists (s : locals) (h' : store),
         plot_flight_path (PyFloat 0) (PyFloat (-1)) (PyFloat 0) h
           = Ok (s, h') /\
         fl (v_C s) = infinity /\
         IntegrationConstant_spec 0 (-1) 0 = nan).
Proof.
  split.
  - exists 0x1.4cccccccccccdp+0%float, 0x1.f333333333333p+1%float, 0%float.
    intros L h A P. rewrite plot_flight_path_run.
    do 2 eexists. split; [reflexivity|].
    cbn [v_C fl]. unfold integration_constant_value, IntegrationConstant_spec.
    rewrite (cos_zero L A). unfold pow_half_near_sqrt, near in P.
    destruct P as [-> | [-> | ->]]; vm_compute; reflexivity.
  - intros L h A. rewrite plot_flight_path_run.
    do 2 eexists. split; [reflexivity|].
    cbn [v_C fl]. unfold integration_constant_value, IntegrationConstant_spec.
    rewrite (cos_zero L A).
    change (-1 / 0)%float with neg_infinity.
    rewrite (pow_neg_infinity_half L A). split; vm_compute; reflexivity.
Qed.

(** C4.  For every input the run returns, and the final arrays satisfy
    the recurrence with [ds = 1]: there are headings [theta 0 = theta0],
    [theta 1], ... such that for each [i] from 1 to [N-1], with
    [normal = (cos(theta + pi/2), -sin(theta + pi/2))] at
    [theta = theta (i-1)], [R = radius_of_curvature(z[i-1], zt, C)],
    [center = (x[i-1] + normal[0]*R, z[i-1] + normal[1]*R)] and
    [dtheta = ds/R], the point [(x[i], z[i])] is
    [rotate(x[i-1], z[i-1], center[0], center[1], dtheta)] and
    [theta i = theta (i-1) + dtheta]. *)
Theorem trajectory_recurrence (L : Libm) (zt z0 theta0 : obj) (h : store) :
  exists (s : locals) (h' : store) (xs zs : list float) (theta : nat -> obj),
    plot_flight_path zt z0 theta0 h = Ok (s, h') /\
    h' !! v_x s = Some xs /\ h' !! v_z s = Some zs /\
    v_ds s = PyFloat 1 /\
    theta 0 = theta0 /\ v_theta s = theta (N - 1) /\
    forall i : nat, 1 <= i <= N - 1 ->
      exists (x_prev z_prev x_i z_i : float) (R dtheta : obj),
        xs !! (i - 1) = Some x_prev /\ zs !! (i - 1) = Some z_prev /\
        xs !! i = Some x_i /\ zs !! i = Some z_i /\
        let theta_prev := theta (i - 1) in
        let normal :=
          (numpy_cos (theta_prev + PyFloat (numpy_pi / 2)),
           - numpy_sin (theta_prev + PyFloat (numpy_pi / 2)))%ar in
        radius_of_curvature (NpFloat z_prev) zt (v_C s) = Ok R /\
        let center :=
          (NpFloat x_prev + normal.1 * R, NpFloat z_prev + normal.2 * R)%ar in
        py_truediv (v_ds s) R = Ok dtheta /\
        rotate (NpFloat x_prev) (NpFloat z_prev) center.1 center.2 dtheta =
          (NpFloat x_i, NpFloat z_i) /\
        theta i = (theta_prev + dtheta)%ar.
Proof.
  set (Cv := integration_constant_value (fl zt) (fl z0) (fl theta0)).
  set (xsf := xs_of (fl zt) (fl z0) (fl theta0)).
  set (zsf := zs_of (fl zt) (fl z0) (fl theta0)).
  eexists _, _, (map xsf (seq 0 N)), (map zsf (seq 0 N)),
    (heading zt z0 theta0).
  run_and_read.
  do 3 (split; [reflexivity|]).
  intros i Hi. destruct i as [|k]; [lia|].
  replace (S k - 1) with k by lia.
  exists (xsf k), (zsf k), (xsf (S k)), (zsf (S k)),
    (NpFloat (CurvatureRadius_spec (zsf k) (fl zt) Cv)),
    (NpFloat (1 / CurvatureRadius_spec (zsf k) (fl zt) Cv)).
  rewrite !map_seq_lookup by lia.
  do 4 (split; [reflexivity|]).
  cbv zeta. split; [apply radius_np; reflexivity|].
  split; [reflexivity|].
  pose proof (advance_obj zt (heading zt z0 theta0 k) Cv (xsf k) (zsf k)) as A.
  subst Cv xsf zsf. cbv zeta in A. rewrite trajectory_S in A.
  cbn [fst snd fl] in A.
  destruct A as [A1 A2]. split; [exact A1|].
  rewrite A2. reflexivity.
Qed.

(** C5.  For every input the run returns with both arrays of length
    [N = 1000], [x[0]] equal to 0 and [z[0]] equal to [z0]; the same holds
    after every number of iterations, so the loop never overwrites the
    entries at index 0. *)
Theorem arrays_length_and_origin (L : Libm) (zt z0 theta0 : obj)
    (h : store) :
  (exists (s : locals) (h' : store) (xs zs : list float),
     plot_flight_path zt z0 theta0 h = Ok (s, h') /\
     h' !! v_x s = Some xs /\ h' !! v_z s = Some zs /\
     length xs = N /\ length zs = N /\ N = 1000 /\
     xs !! 0 = Some 0%float /\ zs !! 0 = Some (fl z0))
  /\ (forall k : nat, k < N ->
        exists (s : locals) (h' : store) (xs zs : list float),
          (do s0 <- setup zt z0 theta0;
           for_each (seq 1 k) (loop_body zt) s0)%st h = Ok (s, h') /\
          h' !! v_x s = Some xs /\ h' !! v_z s = Some zs /\
          length xs = N /\ length zs = N /\
          xs !! 0 = Some 0%float /\ zs !! 0 = Some (fl z0)).
Proof.
  split.
  - do 4 eexists. run_and_read.
    rewrite !length_map, !length_seq.
    do 3 (split; [reflexivity|]).
    rewrite !map_seq_lookup by (unfold N; lia). split; reflexivity.
  - intros k Hk. do 4 eexists. split; [apply prefix_run; exact Hk|].
    cbn [v_x v_z]. split; [apply lookup_x|]. split; [apply lookup_z|].
    rewrite !filled_length by exact Hk.
    do 2 (split; [reflexivity|]).
    rewrite !filled_lookup by lia. split; reflexivity.
Qed.

(** C6.  For all float inputs, builtin or NumPy, and so also for
    [zt == 0] and for [z0] near 0, the run raises nothing: every [/] and
    [**] it executes has a NumPy operand or a nonzero literal divisor.
    It returns arrays of length [N] holding the points that binary64
    arithmetic yields, NaN and infinities included. *)
Theorem plot_flight_path_never_raises (L : Libm) (zt z0 theta0 : obj)
    (h : store) :
  exists (s : locals) (h' : store) (xs zs : list float),
    plot_flight_path zt z0 theta0 h = Ok (s, h') /\
    h' !! v_x s = Some xs /\ h' !! v_z s = Some zs /\
    length xs = N /\ length zs = N /\
    (forall i : nat, i < N ->
       xs !! i = Some (xs_of (fl zt) (fl z0) (fl theta0) i) /\
       zs !! i = Some (zs_of (fl zt) (fl z0) (fl theta0) i)).
Proof.
  do 4 eexists. run_and_read.
  rewrite !length_map, !length_seq. do 2 (split; [reflexivity|]).
  intros i Hi. rewrite !map_seq_lookup by exact Hi. split; reflexivity.
Qed.

(** C9, as amended.  Under the error mode that line 7 installs, a call
    returns, and what it hands to pyplot (the x sequence, the negated z
    sequence, [C]) is fixed by [zt], [z0] and [theta0] alone, whatever
    arrays exist and whatever was plotted before.  The call leaves the
    error mode and every existing array as they were, and a second call
    made after it hands pyplot the same values again.  Each call adds its
    eight calls to what pyplot has received. *)
Theorem plot_flight_path_call_deterministic (L : Libm) (zt z0 theta0 : obj)
    (w : world) :
  np_divide w = ErrIgnore ->
  exists w' w'' : world,
    plot_flight_path_call zt z0 theta0 w = Ok (tt, w') /\
    plot_flight_path_call zt z0 theta0 w' = Ok (tt, w'') /\
    np_divide w' = ErrIgnore /\ np_divide w'' = ErrIgnore /\
    pyplot_calls w' =
      pyplot_calls w ++ plot_calls (fl zt) (fl z0) (fl theta0) /\
    pyplot_calls w'' =
      pyplot_calls w' ++ plot_calls (fl zt) (fl z0) (fl theta0) /\
    (forall a : nat, a < length (arrays w) ->
       arrays w' !! a = arrays w !! a) /\
    (forall a : nat, a < length (arrays w') ->
       arrays w'' !! a = arrays w' !! a).
Proof.
  destruct w as [p h log]. cbn [np_divide arrays pyplot_calls]. intros ->.
  do 2 eexists.
  split; [apply plot_flight_path_call_run|].
  split; [apply plot_flight_path_call_run|].
  cbn [np_divide arrays pyplot_calls].
  do 4 (split; [reflexivity|]).
  split; intros a Ha; apply lookup_old, Ha.
Qed.

Lemma plot_flight_path_call_deterministic_witness :
  np_divide (World ErrIgnore [] []) = ErrIgnore /\
  exists w' w'' : world,
    plot_flight_path_call (L := table_libm) (PyFloat 1) (PyFloat 2) (PyFloat 0)
      (World ErrIgnore [] []) = Ok (tt, w') /\
    plot_flight_path_call (L := table_libm) (PyFloat 1) (PyFloat 2) (PyFloat 0)
      w' = Ok (tt, w'') /\
    np_divide w' = ErrIgnore /\ np_divide w'' = ErrIgnore /\
    pyplot_calls w' = [] ++ plot_calls (L := table_libm) 1 2 0 /\
    pyplot_calls w'' = pyplot_calls w' ++ plot_calls (L := table_libm) 1 2 0 /\
    (forall a : nat, a < length (@nil (list float)) ->
       arrays w' !! a = (@nil (list float)) !! a) /\
    (forall a : nat, a < length (arrays w') ->
       arrays w'' !! a = arrays w' !! a).
Proof.
  split; [reflexivity|].
  apply (plot_flight_path_call_deterministic table_libm (PyFloat 1) (PyFloat 2)
           (PyFloat 0) (World ErrIgnore [] [])).
  reflexivity.
Defined.

(** C9 as stated fails twice.  A call depends on state outside it:
    in NumPy's mode ['raise'] for division, [plot_flight_path(0.0, 1.0,
    0.0)] raises [FloatingPointError] at line 89 where in the mode
    ['ignore'] it returns.  And a call changes state outside it: on every
    input pyplot has received more calls after it than before. *)
Lemma plot_flight_path_call_reads_and_writes :
  (exists zt z0 theta0 : obj,
     forall (L : Libm) (h : store) (log : list pyplot_call),
       plot_flight_path_call zt z0 theta0 (World ErrRaise h log) =
         Raise FloatingPointError /\
       exists w' : world,
         plot_flight_path_call zt z0 theta0 (World ErrIgnore h log) =
           Ok (tt, w'))
  /\ (forall (L : Libm) (zt z0 theta0 : obj) (h : store)
        (log : list pyplot_call),
        exists w' : world,
          plot_flight_path_call zt z0 theta0 (World ErrIgnore h log) =
            Ok (tt, w') /\
          pyplot_calls w' <> log).
Proof.
  split.
  - exists (PyFloat 0), (PyFloat 1), (PyFloat 0). intros L h log. split.
    + unfold plot_flight_path_call, wbind, numpy_run.
      cbn [np_divide arrays]. unfold plot_flight_path_under, bind.
      rewrite setup_under_raise by reflexivity. reflexivity.
    + eexists. apply plot_flight_path_call_run.
  - intros L zt z0 theta0 h log. eexists.
    split; [apply plot_flight_path_call_run|].
    cbn [pyplot_calls]. intros E. apply (f_equal length) in E.
    rewrite length_app in E. cbn [plot_calls length] in E. lia.
Qed.

(** * Further properties of the code

    Properties read off the source beyond the specification's sentences:
    the algebra of [rotate], the geometry of one iteration of the loop,
    and what the functions do at zeros, infinities and NaN. *)

Ltac real_rotate :=
  unfold rotate; cbv [fst snd add sub mul neg numpy_cos numpy_sin real_arith].

(** ** [rotate] over the real numbers *)

Section RealRotation.
Local Open Scope R_scope.

(** X2.  Rotations about one centre compose: rotating by [a] and then the
    result by [b] is rotating by [a + b]. *)
Theorem rotate_compose (x z xCenter zCenter a b : R) :
  let p := rotate x z xCenter zCenter a in
  rotate p.1 p.2 xCenter zCenter b = rotate x z xCenter zCenter (a + b).
Proof.
  real_rotate. rewrite cos_plus, sin_plus. f_equal; ring.
Qed.

(** X3.  Round trip: rotating by [a] and then by [- a] about the same
    centre gives back the point. *)
Theorem rotate_back (x z xCenter zCenter a : R) :
  let p := rotate x z xCenter zCenter a in
  rotate p.1 p.2 xCenter zCenter (- a) = (x, z).
Proof.
  real_rotate. rewrite cos_neg, sin_neg.
  pose proof (sin2_cos2 a) as E. unfold Rsqr in E.
  f_equal.
  - transitivity (xCenter + (x - xCenter) * (sin a * sin a + cos a * cos a));
      [ring | rewrite E; ring].
  - transitivity (zCenter + (z - zCenter) * (sin a * sin a + cos a * cos a));
      [ring | rewrite E; ring].
Qed.

End RealRotation.

(** ** One iteration of the loop over the real numbers

    [arc_step] is lines 96 to 100 of the script; read over the reals with
    [half_pi = PI / 2] it moves the point along a circle of radius [R]. *)

Section RealArc.
Local Open Scope R_scope.

Lemma sin_abs_le (u : R) : 0 <= u -> - u <= sin u <= u.
Proof.
  intros Hu. destruct (Req_dec u 0) as [->|Hn].
  - rewrite sin_0. lra.
  - assert (H : 0 < u) by lra. pose proof (sin_lt_x u H). split; [|lra].
    destruct (Rle_dec u 1) as [H1|H1].
    + assert (0 <= sin u); [|lra]. apply sin_ge_0; [lra|].
      pose proof PI2_1. pose proof PI_RGT_0. lra.
    + pose proof (SIN_bound u). lra.
Qed.

Lemma sin_sqr_le (u : R) : sin u * sin u <= u * u.
Proof.
  destruct (Rle_dec 0 u) as [H|H].
  - pose proof (sin_abs_le u H). nra.
  - pose proof (sin_abs_le (- u) ltac:(lra)) as B. rewrite sin_neg in B. nra.
Qed.

Lemma center_of_real (x z theta R : R) :
  center_of (PI / 2) x z theta R = (x - R * sin theta, z - R * cos theta).
Proof.
  unfold center_of, normal_of.
  cbv [fst snd add sub mul neg numpy_cos numpy_sin real_arith].
  rewrite cos_plus, sin_plus, cos_PI2, sin_PI2. f_equal; ring.
Qed.

Lemma arc_step_real (x z theta R dtheta : R) :
  arc_step (PI / 2) x z theta R dtheta =
    (x + R * (sin (theta + dtheta) - sin theta),
     z + R * (cos (theta + dtheta) - cos theta)).
Proof.
  unfold arc_step. rewrite center_of_real. real_rotate.
  rewrite cos_plus, sin_plus. f_equal; ring.
Qed.

(** X4.  The centre the loop builds is [(x - R sin theta, z - R cos theta)],
    the new point is
    [(x + R (sin (theta + dtheta) - sin theta),
      z + R (cos (theta + dtheta) - cos theta))],
    and both the old and the new point lie at distance [|R|] from the
    centre. *)
Theorem arc_step_on_circle (x z theta R dtheta : R) :
  let center := center_of (PI / 2) x z theta R in
  let p := arc_step (PI / 2) x z theta R dtheta in
  center = (x - R * sin theta, z - R * cos theta)
  /\ p = (x + R * (sin (theta + dtheta) - sin theta),
          z + R * (cos (theta + dtheta) - cos theta))
  /\ (x - center.1) ^ 2 + (z - center.2) ^ 2 = R ^ 2
  /\ (p.1 - center.1) ^ 2 + (p.2 - center.2) ^ 2 = R ^ 2.
Proof.
  cbv zeta. rewrite arc_step_real, center_of_real. cbn [fst snd].
  pose proof (sin2_cos2 theta) as E1.
  pose proof (sin2_cos2 (theta + dtheta)) as E2.
  unfold Rsqr in E1, E2.
  split; [reflexivity|]. split; [reflexivity|]. split.
  - transitivity (R ^ 2 * (sin theta * sin theta + cos theta * cos theta));
      [ring | rewrite E1; ring].
  - transitivity (R ^ 2 * (sin (theta + dtheta) * sin (theta + dtheta) +
                         cos (theta + dtheta) * cos (theta + dtheta)));
      [ring | rewrite E2; ring].
Qed.

(** X5.  After a step the centre computed from the new point and the new
    heading [theta + dtheta] with the same radius is the centre of the
    step: while the radius does not change the path stays on one circle. *)
Theorem arc_step_same_center (x z theta R dtheta : R) :
  let p := arc_step (PI / 2) x z theta R dtheta in
  center_of (PI / 2) p.1 p.2 (theta + dtheta) R =
    center_of (PI / 2) x z theta R.
Proof.
  cbv zeta. rewrite arc_step_real, !center_of_real. cbn [fst snd].
  f_equal; ring.
Qed.

(** X6.  With [dtheta = ds / R], as on line 99, and a nonzero radius, the
    new point is no further than [|ds|] from the old one: the step length
    bounds the chord. *)
Theorem arc_step_length (x z theta R ds : R) :
  R <> 0 ->
  let p := arc_step (PI / 2) x z theta R (ds / R) in
  (p.1 - x) ^ 2 + (p.2 - z) ^ 2 <= ds ^ 2.
Proof.
  intros HR. cbv zeta. rewrite arc_step_real. cbn [fst snd].
  set (d := ds / R).
  pose proof (sin2_cos2 theta) as E1.
  pose proof (sin2_cos2 (theta + d)) as E2.
  unfold Rsqr in E1, E2.
  assert (C : cos d = 1 - 2 * sin (d / 2) * sin (d / 2)).
  { rewrite <- cos_2a_sin. f_equal. field. }
  assert (Cd : cos d =
               cos (theta + d) * cos theta + sin (theta + d) * sin theta).
  { rewrite <- cos_minus. f_equal. ring. }
  replace ((x + R * (sin (theta + d) - sin theta) - x) ^ 2 +
           (z + R * (cos (theta + d) - cos theta) - z) ^ 2)
    with (R ^ 2 * (4 * (sin (d / 2) * sin (d / 2)))).
  2:{ transitivity
        (R ^ 2 * ((sin (theta + d) * sin (theta + d) +
                   cos (theta + d) * cos (theta + d))
                  + (sin theta * sin theta + cos theta * cos theta)
                  - 2 * (cos (theta + d) * cos theta +
                         sin (theta + d) * sin theta)));
        [|ring].
      rewrite E1, E2, <- Cd, C. ring. }
  pose proof (sin_sqr_le (d / 2)) as S.
  replace (ds ^ 2) with (R ^ 2 * (4 * (d / 2 * (d / 2))))
    by (unfold d; field; exact HR).
  apply Rmult_le_compat_l; [nra|lra].
Qed.

Lemma arc_step_length_witness :
  2 <> 0 /\
  let p := arc_step (PI / 2) 0 1 0 2 (1 / 2) in
  (p.1 - 0) ^ 2 + (p.2 - 1) ^ 2 <= 1 ^ 2.
Proof.
  split; [lra|]. apply (arc_step_length 0 1 0 2 1). lra.
Defined.

End RealArc.

(** ** NaN and zeros in binary64 *)

Section Exceptional.
Local Open Scope float_scope.

Lemma nan_spec : Prim2SF nan = S754_nan.
Proof. reflexivity. Qed.

Lemma add_nan_r f : f + nan = nan.
Proof.
  apply Prim2SF_inj. rewrite add_spec, nan_spec.
  destruct (Prim2SF f) as [[]|[]| |]; reflexivity.
Qed.

Lemma add_nan_l f : nan + f = nan.
Proof. apply Prim2SF_inj. rewrite add_spec, nan_spec. reflexivity. Qed.

Lemma sub_nan_r f : f - nan = nan.
Proof.
  apply Prim2SF_inj. rewrite sub_spec, nan_spec.
  destruct (Prim2SF f) as [[]|[]| |]; reflexivity.
Qed.

Lemma sub_nan_l f : nan - f = nan.
Proof. apply Prim2SF_inj. rewrite sub_spec, nan_spec. reflexivity. Qed.

Lemma mul_nan_r f : f * nan = nan.
Proof.
  apply Prim2SF_inj. rewrite mul_spec, nan_spec.
  destruct (Prim2SF f) as [[]|[]| |]; reflexivity.
Qed.

Lemma mul_nan_l f : nan * f = nan.
Proof. apply Prim2SF_inj. rewrite mul_spec, nan_spec. reflexivity. Qed.

Lemma div_nan_r f : f / nan = nan.
Proof.
  apply Prim2SF_inj. rewrite div_spec, nan_spec.
  destruct (Prim2SF f) as [[]|[]| |]; reflexivity.
Qed.

Lemma div_nan_l f : nan / f = nan.
Proof. apply Prim2SF_inj. rewrite div_spec, nan_spec. reflexivity. Qed.

Lemma opp_nan : - nan = nan.
Proof. reflexivity. Qed.

Lemma is_zero_inv (f : float) :
  is_zero f = true -> exists s, Prim2SF f = S754_zero s.
Proof.
  unfold is_zero. rewrite FloatAxioms.eqb_spec.
  destruct (Prim2SF f) as [s|s| |s m e]; cbn; eauto; try discriminate;
    destruct s; discriminate.
Qed.

Lemma zero_inv (f : float) (s : bool) :
  Prim2SF f = S754_zero s -> f = 0 \/ f = -0.
Proof.
  intros E. destruct s; [right|left]; apply Prim2SF_inj; rewrite E; reflexivity.
Qed.

Lemma infinity_inv (f : float) (s : bool) :
  Prim2SF f = S754_infinity s -> f = infinity \/ f = neg_infinity.
Proof.
  intros E. destruct s; [right|left]; apply Prim2SF_inj; rewrite E; reflexivity.
Qed.

Lemma is_infinity_spec (f : float) (s : bool) :
  Prim2SF f = S754_infinity s -> is_infinity f = true.
Proof.
  intros E. unfold is_infinity.
  rewrite FloatAxioms.eqb_spec, abs_spec, E. reflexivity.
Qed.

Lemma sub_diag_zero (f : float) :
  is_finite f = true -> Prim2SF (f - f) = S754_zero false.
Proof.
  intros H. rewrite sub_spec.
  destruct (is_finite_spec f H) as [[s E]|(s & m & e & E)]; rewrite E.
  - destruct s; reflexivity.
  - unfold SF64sub, SFsub. rewrite Z.sub_diag. reflexivity.
Qed.

Lemma zero_mul_finite (t f : float) (s : bool) :
  Prim2SF t = S754_zero s -> is_finite f = true ->
  exists s', Prim2SF (t * f) = S754_zero s'.
Proof.
  intros T H. rewrite mul_spec, T.
  destruct (is_finite_spec f H) as [[s' E]|(s' & m & e & E)]; rewrite E;
    eexists; reflexivity.
Qed.

Lemma zero_add_zero (t u : float) (s1 s2 : bool) :
  Prim2SF t = S754_zero s1 -> Prim2SF u = S754_zero s2 ->
  exists s', Prim2SF (t + u) = S754_zero s'.
Proof.
  intros T U. rewrite add_spec, T, U. destruct s1, s2; eexists; reflexivity.
Qed.

Lemma same_number_add_zero (c t : float) (s : bool) :
  Prim2SF t = S754_zero s -> same_number (c + t) c.
Proof.
  intros T. destruct (Prim2SF c) as [s'|s'| |s' m e] eqn:C.
  - right. split; [|exact (is_zero_spec c s' C)].
    unfold is_zero. rewrite FloatAxioms.eqb_spec, add_spec, C, T.
    destruct s', s; reflexivity.
  - left. apply Prim2SF_inj. rewrite add_spec, C, T. reflexivity.
  - left. apply Prim2SF_inj. rewrite add_spec, C, T. reflexivity.
  - left. apply Prim2SF_inj. rewrite add_spec, C, T. reflexivity.
Qed.

Lemma opp_zero (t : float) (s : bool) :
  Prim2SF t = S754_zero s -> Prim2SF (- t) = S754_zero (negb s).
Proof. intros T. rewrite opp_spec, T. reflexivity. Qed.

End Exceptional.

(** Every arithmetic operation with a NaN operand gives NaN. *)
Ltac nan_simpl :=
  repeat first
    [ rewrite add_nan_r | rewrite add_nan_l | rewrite sub_nan_r
    | rewrite sub_nan_l | rewrite mul_nan_r | rewrite mul_nan_l
    | rewrite div_nan_r | rewrite div_nan_l | rewrite opp_nan ].

(** ** [rotate] and [radius_of_curvature] at exceptional values *)

Section ExceptionalCalls.
Local Open Scope float_scope.

Lemma rotate_nan_float {L : Libm} (x z xCenter zCenter angle : float) :
  x = nan \/ z = nan \/ xCenter = nan \/ zCenter = nan ->
  rotate x z xCenter zCenter angle = (nan, nan).
Proof.
  unfold rotate. cbv [fst snd add sub mul neg numpy_cos numpy_sin float_arith].
  intros [-> | [-> | [-> | ->]]]; nan_simpl; reflexivity.
Qed.

(** X7.  [rotate] does not filter NaN: when one of the point's or the
    centre's coordinates is NaN both returned coordinates are NaN,
    whatever the angle and whatever [cos] and [sin] return. *)
Theorem rotate_nan (L : Libm) (x z xCenter zCenter angle : obj) :
  fl x = nan \/ fl z = nan \/ fl xCenter = nan \/ fl zCenter = nan ->
  rotate x z xCenter zCenter angle = (NpFloat nan, NpFloat nan).
Proof.
  intros H. rewrite rotate_obj, (rotate_nan_float _ _ _ _ _ H). reflexivity.
Qed.

Lemma rotate_nan_witness :
  (fl (PyFloat 2) = nan \/ fl (PyFloat 1) = nan \/
   fl (NpFloat nan) = nan \/ fl (PyFloat 0) = nan) /\
  rotate (H := @obj_arith table_libm)
    (PyFloat 2) (PyFloat 1) (NpFloat nan) (PyFloat 0) (PyFloat 1) =
    (NpFloat nan, NpFloat nan).
Proof.
  split; [right; right; left; reflexivity|].
  apply (rotate_nan table_libm). right; right; left; reflexivity.
Defined.

(** X8.  The centre is a fixed point in binary64 too: for a finite centre
    and finite [cos] and [sin] of the angle, rotating the centre about
    itself returns it, up to the sign of a zero. *)
Theorem rotate_center (L : Libm) (xCenter zCenter angle : obj) :
  is_finite (fl xCenter) = true -> is_finite (fl zCenter) = true ->
  is_finite (fcos (fl angle)) = true -> is_finite (fsin (fl angle)) = true ->
  let r := rotate xCenter zCenter xCenter zCenter angle in
  same_number (fl r.1) (fl xCenter) /\ same_number (fl r.2) (fl zCenter).
Proof.
  intros Hx Hz Hc Hs. cbv zeta. rewrite rotate_obj. unfold rotate.
  cbv [fst snd fl add sub mul neg numpy_cos numpy_sin float_arith].
  fold (fl xCenter) (fl zCenter) (fl angle).
  pose proof (sub_diag_zero _ Hx) as Dx. pose proof (sub_diag_zero _ Hz) as Dz.
  destruct (zero_mul_finite _ _ _ Dx Hc) as [a Ea].
  destruct (zero_mul_finite _ _ _ Dz Hs) as [b Eb].
  destruct (zero_mul_finite _ _ _ (opp_zero _ _ Dx) Hs) as [c Ec].
  destruct (zero_mul_finite _ _ _ Dz Hc) as [d Ed].
  destruct (zero_add_zero _ _ _ _ Ea Eb) as [e Ee].
  destruct (zero_add_zero _ _ _ _ Ec Ed) as [g Eg].
  split; eapply same_number_add_zero; eassumption.
Qed.

Lemma rotate_center_witness :
  is_finite 3 = true /\ is_finite (-0.5) = true /\
  is_finite (fcos (Libm := table_libm) 1) = true /\
  is_finite (fsin (Libm := table_libm) 1) = true /\
  let r := rotate (H := @obj_arith table_libm)
             (PyFloat 3) (NpFloat (-0.5)) (PyFloat 3) (NpFloat (-0.5))
             (PyFloat 1) in
  same_number (fl r.1) 3 /\ same_number (fl r.2) (-0.5).
Proof.
  do 4 (split; [reflexivity|]).
  apply (rotate_center table_libm (PyFloat 3) (NpFloat (-0.5)) (PyFloat 1));
    reflexivity.
Defined.

(** X9.  Called with builtin floats for [z] and [zt] and a zero depth
    [z] (of either sign), [radius_of_curvature] raises ZeroDivisionError
    at [zt/z], whatever [zt] and [C] are: [numpy.seterr] does not reach
    CPython's own division. *)
Theorem radius_of_curvature_zero_depth_raises (L : Libm) (z zt : float)
    (C : obj) :
  is_zero z = true ->
  radius_of_curvature (PyFloat z) (PyFloat zt) C = Raise ZeroDivisionError.
Proof.
  intros H. unfold is_zero, zero in H. unfold radius_of_curvature.
  destruct C; cbn; rewrite H; reflexivity.
Qed.

Lemma radius_of_curvature_zero_depth_raises_witness :
  is_zero (-0) = true /\
  radius_of_curvature (L := table_libm) (PyFloat (-0)) (PyFloat 2)
    (NpFloat 0.5) = Raise ZeroDivisionError.
Proof.
  split; [reflexivity|].
  apply (radius_of_curvature_zero_depth_raises table_libm (-0) 2 (NpFloat 0.5)).
  reflexivity.
Defined.

(** X10.  With [C] a zero the radius does not depend on the depth: as
    soon as [(zt/z)**1.5] is finite, [radius_of_curvature z zt C] is
    [zt / (1/3)] (one of [z], [zt] being a NumPy scalar, as in the
    loop). *)
Theorem radius_zero_constant (L : Libm) (z zt C : obj) :
  is_np z || is_np zt = true ->
  is_zero (fl C) = true ->
  is_finite (fpow (fl zt / fl z) 1.5) = true ->
  radius_of_curvature z zt C = Ok (NpFloat (fl zt / (1 / 3))).
Proof.
  intros Hnp HC Hp. rewrite radius_np by exact Hnp.
  unfold CurvatureRadius_spec. do 3 f_equal.
  destruct (is_zero_inv _ HC) as [s E].
  assert (exists s', Prim2SF (fl C / 2 * fpow (fl zt / fl z) 1.5) =
                     S754_zero s') as [s' E'].
  { rewrite mul_spec, div_spec, E.
    destruct (is_finite_spec _ Hp) as [[s' P]|(s' & m & e & P)]; rewrite P;
      eexists; reflexivity. }
  apply Prim2SF_inj. rewrite sub_spec, E'. reflexivity.
Qed.

Lemma radius_zero_constant_witness :
  is_np (NpFloat 1) || is_np (PyFloat 4) = true /\
  is_zero (fl (NpFloat (-0))) = true /\
  is_finite (fpow (Libm := limits_libm) (4 / 1) 1.5) = true /\
  radius_of_curvature (L := limits_libm) (NpFloat 1) (PyFloat 4)
    (NpFloat (-0)) = Ok (NpFloat (4 / (1 / 3))).
Proof.
  do 3 (split; [reflexivity|]).
  apply (radius_zero_constant limits_libm (NpFloat 1) (PyFloat 4)
           (NpFloat (-0))); reflexivity.
Defined.

(** X11.  [radius_of_curvature] does not filter NaN: with one of [z],
    [zt] a NumPy scalar, a NaN [zt], a NaN [C] or a NaN power term gives
    the radius NaN, and no exception. *)
Theorem radius_nan (L : Libm) (z zt C : obj) :
  is_np z || is_np zt = true ->
  fl zt = nan \/ fl C = nan \/ fpow (fl zt / fl z) 1.5 = nan ->
  radius_of_curvature z zt C = Ok (NpFloat nan).
Proof.
  intros Hnp H. rewrite radius_np by exact Hnp. unfold CurvatureRadius_spec.
  do 2 f_equal.
  destruct H as [-> | [-> | ->]]; nan_simpl; reflexivity.
Qed.

Lemma radius_nan_witness :
  is_np (NpFloat 2) || is_np (PyFloat 1) = true /\
  (fl (PyFloat 1) = nan \/ fl (PyFloat nan) = nan \/
   fpow (Libm := table_libm) (fl (PyFloat 1) / fl (NpFloat 2)) 1.5 = nan) /\
  radius_of_curvature (L := table_libm) (NpFloat 2) (PyFloat 1) (PyFloat nan) =
    Ok (NpFloat nan).
Proof.
  split; [reflexivity|]. split; [right; left; reflexivity|].
  apply (radius_nan table_libm (NpFloat 2) (PyFloat 1) (PyFloat nan));
    [reflexivity | right; left; reflexivity].
Defined.

End ExceptionalCalls.

(** ** The driver *)

Section DriverFacts.
Local Open Scope float_scope.

(** One application of [advance] is one [arc_step] with the radius at the
    current depth and [dtheta = ds/R], [ds = 1]. *)
Lemma advance_arc_step {L : Libm} (zt C x z theta : float) :
  let R := CurvatureRadius_spec z zt C in
  advance zt C (x, z, theta) =
    ((arc_step (numpy_pi / 2) x z theta R (1 / R)).1,
     (arc_step (numpy_pi / 2) x z theta R (1 / R)).2, theta + 1 / R).
Proof. reflexivity. Qed.

Lemma arc_step_nan {L : Libm} (half_pi x z theta R dtheta : float) :
  x = nan \/ z = nan \/ R = nan ->
  arc_step half_pi x z theta R dtheta = (nan, nan).
Proof.
  intros H. unfold arc_step, center_of, normal_of. cbv zeta.
  apply rotate_nan_float.
  cbv [fst snd add sub mul neg numpy_cos numpy_sin float_arith].
  destruct H as [-> | [-> | ->]]; nan_simpl; auto.
Qed.

Lemma trajectory_nan_step {L : Libm} (zt z0 theta0 : float) (k : nat) :
  xs_of zt z0 theta0 k = nan \/ zs_of zt z0 theta0 k = nan ->
  xs_of zt z0 theta0 (S k) = nan /\ zs_of zt z0 theta0 (S k) = nan.
Proof.
  unfold xs_of, zs_of, trajectory. rewrite Nat.iter_succ.
  destruct (Nat.iter k _ _) as [[x z] theta]. cbn [fst snd]. intros H.
  rewrite advance_arc_step. cbn [fst snd].
  rewrite arc_step_nan by tauto. split; reflexivity.
Qed.

Lemma trajectory_nan {L : Libm} (zt z0 theta0 : float) (k j : nat) :
  k < j ->
  xs_of zt z0 theta0 k = nan \/ zs_of zt z0 theta0 k = nan ->
  xs_of zt z0 theta0 j = nan /\ zs_of zt z0 theta0 j = nan.
Proof.
  intros Hj H. induction Hj as [|j Hj IH].
  - apply trajectory_nan_step, H.
  - apply trajectory_nan_step. left. apply IH.
Qed.

Lemma trajectory_first_nan {L : Libm} (zt z0 theta0 : float) (j : nat) :
  z0 = nan \/
  CurvatureRadius_spec z0 zt (integration_constant_value zt z0 theta0) = nan ->
  1 <= j ->
  xs_of zt z0 theta0 j = nan /\ zs_of zt z0 theta0 j = nan.
Proof.
  intros H Hj.
  assert (H1 : xs_of zt z0 theta0 1 = nan /\ zs_of zt z0 theta0 1 = nan).
  { unfold xs_of, zs_of, trajectory. cbn [Nat.iter nat_rect].
    rewrite advance_arc_step. cbn [fst snd].
    rewrite arc_step_nan by tauto. split; reflexivity. }
  destruct (decide (j = 1%nat)) as [->|]; [exact H1|].
  apply (trajectory_nan zt z0 theta0 1 j); [lia|]. left. apply H1.
Qed.

Lemma filled_lookup_rest (n : nat) (f : nat -> float) (k j : nat) :
  k < j < n -> filled n f k !! j = Some 0.
Proof.
  intros H. unfold filled.
  rewrite lookup_app_r by (rewrite length_map, length_seq; lia).
  apply lookup_replicate_2. rewrite length_map, length_seq. lia.
Qed.

(** X12.  The run looks at the numbers only, not at the kind of float it
    is given: builtin floats and NumPy scalars of the same values give
    the same result, final locals and arrays alike. *)
Theorem plot_flight_path_ignores_kinds (L : Libm)
    (zt z0 theta0 zt' z0' theta0' : obj) (h : store) :
  fl zt = fl zt' -> fl z0 = fl z0' -> fl theta0 = fl theta0' ->
  plot_flight_path zt z0 theta0 h = plot_flight_path zt' z0' theta0' h.
Proof.
  intros E1 E2 E3. rewrite !plot_flight_path_run. unfold heading.
  destruct (N - 1)%nat as [|n] eqn:E; [discriminate E|].
  rewrite E1, E2, E3. reflexivity.
Qed.

Lemma plot_flight_path_ignores_kinds_witness :
  fl (PyFloat 1) = fl (NpFloat 1) /\ fl (PyFloat 2) = fl (NpFloat 2) /\
  fl (PyFloat 0) = fl (NpFloat 0) /\
  plot_flight_path (L := table_libm) (PyFloat 1) (PyFloat 2) (PyFloat 0) [] =
  plot_flight_path (L := table_libm) (NpFloat 1) (NpFloat 2) (NpFloat 0) [].
Proof.
  do 3 (split; [reflexivity|]).
  apply (plot_flight_path_ignores_kinds table_libm); reflexivity.
Defined.

(** X13.  The loop fills the arrays in order: after [k] iterations the
    entries up to [k] hold the points of the trajectory and every later
    entry still holds the [0.0] that [numpy.zeros] put there. *)
Theorem loop_fills_in_order (L : Libm) (zt z0 theta0 : obj) (h : store)
    (k : nat) :
  (k < N)%nat ->
  exists (s : locals) (h' : store) (xs zs : list float),
    (do s0 <- setup zt z0 theta0;
     for_each (seq 1 k) (loop_body zt) s0)%st h = Ok (s, h') /\
    h' !! v_x s = Some xs /\ h' !! v_z s = Some zs /\
    (forall j : nat, j <= k ->
       xs !! j = Some (xs_of (fl zt) (fl z0) (fl theta0) j) /\
       zs !! j = Some (zs_of (fl zt) (fl z0) (fl theta0) j)) /\
    (forall j : nat, k < j < N ->
       xs !! j = Some 0 /\ zs !! j = Some 0).
Proof.
  intros Hk. do 4 eexists. split; [apply prefix_run; exact Hk|].
  cbn [v_x v_z]. split; [apply lookup_x|]. split; [apply lookup_z|].
  split; intros j Hj.
  - rewrite !filled_lookup by exact Hj. split; reflexivity.
  - rewrite !filled_lookup_rest by exact Hj. split; reflexivity.
Qed.

Lemma loop_fills_in_order_witness :
  (2 < N)%nat /\
  exists (s : locals) (h' : store) (xs zs : list float),
    (do s0 <- setup (L := table_libm) (PyFloat 1) (PyFloat 1) (PyFloat 0);
     for_each (seq 1 2) (loop_body (L := table_libm) (PyFloat 1)) s0)%st []
      = Ok (s, h') /\
    h' !! v_x s = Some xs /\ h' !! v_z s = Some zs /\
    (forall j : nat, j <= 2 ->
       xs !! j = Some (xs_of (L := table_libm) 1 1 0 j) /\
       zs !! j = Some (zs_of (L := table_libm) 1 1 0 j)) /\
    (forall j : nat, 2 < j < N ->
       xs !! j = Some 0 /\ zs !! j = Some 0).
Proof.
  split; [unfold N; lia|].
  apply (loop_fills_in_order table_libm (PyFloat 1) (PyFloat 1) (PyFloat 0) [] 2).
  unfold N; lia.
Defined.

(** X14.  The arrays [z] and [x] of a run are two distinct arrays, and
    neither existed before the call: they alias neither each other nor
    an earlier array.  At the end of the run [C] and [theta] are NumPy
    scalars and [ds] is still the builtin [1.0]. *)
Theorem plot_flight_path_arrays_fresh (L : Libm) (zt z0 theta0 : obj)
    (h : store) :
  exists (s : locals) (h' : store),
    plot_flight_path zt z0 theta0 h = Ok (s, h') /\
    v_z s <> v_x s /\
    (length h <= v_z s < length h')%nat /\
    (length h <= v_x s < length h')%nat /\
    is_np (v_C s) = true /\ is_np (v_theta s) = true /\ v_ds s = PyFloat 1.
Proof.
  do 2 eexists. split; [apply plot_flight_path_run|].
  cbn [v_z v_x v_C v_theta v_ds]. rewrite length_app. cbn [length].
  repeat split; lia.
Qed.

(** X15.  NaN is absorbing along the path: once a coordinate of some
    point is NaN, both coordinates of every later point are NaN. *)
Theorem nan_is_absorbing (L : Libm) (zt z0 theta0 : obj) (h : store) :
  exists (s : locals) (h' : store) (xs zs : list float),
    plot_flight_path zt z0 theta0 h = Ok (s, h') /\
    h' !! v_x s = Some xs /\ h' !! v_z s = Some zs /\
    forall k j : nat, k < j < N ->
      xs !! k = Some nan \/ zs !! k = Some nan ->
      xs !! j = Some nan /\ zs !! j = Some nan.
Proof.
  do 4 eexists. run_and_read.
  intros k j Hkj. rewrite !map_seq_lookup by lia.
  intros H.
  destruct (trajectory_nan (fl zt) (fl z0) (fl theta0) k j) as [-> ->];
    [lia| |auto].
  destruct H as [H|H]; injection H as H; auto.
Qed.

(** X16.  A NaN trim depth or a NaN initial depth raises nothing and
    gives a path whose every point after the first is NaN. *)
Theorem nan_input_gives_nan_path (L : Libm) (zt z0 theta0 : obj)
    (h : store) :
  fl zt = nan \/ fl z0 = nan ->
  exists (s : locals) (h' : store) (xs zs : list float),
    plot_flight_path zt z0 theta0 h = Ok (s, h') /\
    h' !! v_x s = Some xs /\ h' !! v_z s = Some zs /\
    forall j : nat, 1 <= j < N ->
      xs !! j = Some nan /\ zs !! j = Some nan.
Proof.
  intros H. do 4 eexists. run_and_read.
  intros j Hj. rewrite !map_seq_lookup by lia.
  destruct (trajectory_first_nan (fl zt) (fl z0) (fl theta0) j) as [-> ->];
    [|lia|auto].
  destruct H as [H|H]; [right|left; exact H].
  unfold CurvatureRadius_spec. rewrite H. nan_simpl. reflexivity.
Qed.

Lemma nan_input_gives_nan_path_witness :
  (fl (PyFloat 1) = nan \/ fl (PyFloat nan) = nan) /\
  exists (s : locals) (h' : store) (xs zs : list float),
    plot_flight_path (L := table_libm) (PyFloat 1) (PyFloat nan) (PyFloat 0) []
      = Ok (s, h') /\
    h' !! v_x s = Some xs /\ h' !! v_z s = Some zs /\
    forall j : nat, 1 <= j < N ->
      xs !! j = Some nan /\ zs !! j = Some nan.
Proof.
  split; [right; reflexivity|].
  apply (nan_input_gives_nan_path table_libm (PyFloat 1) (PyFloat nan)
           (PyFloat 0) []).
  right; reflexivity.
Defined.

End DriverFacts.

(** ** A zero trim depth *)

Section ZeroTrim.
Local Open Scope float_scope.
Context {L : Libm} (P : PowLimits L).
Context (zt z0 theta0 : float).
Context (Hzt : is_zero zt = true).
Context (Hz0 : finite_nonzero (1 / 3 * z0) = true).
Context (Hcos : is_finite (fcos theta0) = true).

Lemma zero_trim_z0 : exists s m e, Prim2SF z0 = S754_finite s m e.
Proof.
  destruct (finite_nonzero_spec _ Hz0) as (s & m & e & E).
  rewrite mul_spec in E.
  destruct (Prim2SF z0) as [s'|s'| |s' m' e']; eauto; discriminate E.
Qed.

(** [z0/zt] is an infinity, its power [+inf], and [(1/3*z0)/zt] an
    infinity too: [C] is infinite. *)
Lemma zero_trim_constant :
  exists s, Prim2SF (integration_constant_value zt z0 theta0) =
            S754_infinity s.
Proof.
  destruct (is_zero_inv _ Hzt) as [sz Ez].
  destruct (finite_nonzero_spec _ Hz0) as (sa & ma & ea & Ea).
  destruct zero_trim_z0 as (s0 & m0 & e0 & E0).
  unfold integration_constant_value.
  assert (R : fpow (z0 / zt) 0.5 = infinity).
  { destruct (infinity_inv (z0 / zt) (xorb s0 sz)) as [-> | ->].
    - rewrite div_spec, E0, Ez. reflexivity.
    - apply (pow_infinity_half' L P).
    - apply (pow_neg_infinity_half' L P). }
  rewrite R, mul_spec, sub_spec, div_spec, Ea, Ez.
  destruct (is_finite_spec _ Hcos) as [[sc Ec]|(sc & mc & ec & Ec)]; rewrite Ec;
    eexists; reflexivity.
Qed.

(** The first radius is [0 / (1/3 - inf * 0)], a NaN. *)
Lemma zero_trim_radius :
  CurvatureRadius_spec z0 zt (integration_constant_value zt z0 theta0) = nan.
Proof.
  destruct zero_trim_constant as [s Es].
  destruct (is_zero_inv _ Hzt) as [sz Ez].
  destruct zero_trim_z0 as (s0 & m0 & e0 & E0).
  unfold CurvatureRadius_spec.
  assert (R : fpow (zt / z0) 1.5 = 0).
  { destruct (zero_inv (zt / z0) (xorb sz s0)) as [-> | ->].
    - rewrite div_spec, E0, Ez. reflexivity.
    - apply (pow_zero L P).
    - apply (pow_neg_zero L P). }
  rewrite R.
  destruct (infinity_inv _ _ Es) as [-> | ->];
    change (infinity / 2 * 0) with nan || change (neg_infinity / 2 * 0) with nan;
    nan_simpl; reflexivity.
Qed.

End ZeroTrim.

Section ZeroTrimRun.
Local Open Scope float_scope.

Lemma limits_libm_pow_limits : PowLimits limits_libm.
Proof. split; reflexivity. Qed.

(** X17.  A zero trim depth [zt] (of either sign) with a finite nonzero
    initial depth raises nothing, although the script divides by [zt]:
    with [pow] as C11 Annex F fixes it at zeros and infinities, the
    integration constant is an infinity and every point after the first
    is NaN. *)
Theorem zero_trim_depth_gives_nan_path (L : Libm) (zt z0 theta0 : obj)
    (h : store) :
  PowLimits L ->
  is_zero (fl zt) = true ->
  finite_nonzero (1 / 3 * fl z0) = true ->
  is_finite (fcos (fl theta0)) = true ->
  exists (s : locals) (h' : store) (xs zs : list float),
    plot_flight_path zt z0 theta0 h = Ok (s, h') /\
    h' !! v_x s = Some xs /\ h' !! v_z s = Some zs /\
    is_infinity (fl (v_C s)) = true /\
    forall j : nat, 1 <= j < N ->
      xs !! j = Some nan /\ zs !! j = Some nan.
Proof.
  intros P Hzt Hz0 Hc. do 4 eexists. run_and_read.
  split.
  - destruct (zero_trim_constant P _ _ _ Hzt Hz0 Hc) as [s E].
    exact (is_infinity_spec _ _ E).
  - intros j Hj. rewrite !map_seq_lookup by lia.
    destruct (trajectory_first_nan (fl zt) (fl z0) (fl theta0) j) as [-> ->];
      [|lia|auto].
    right. exact (zero_trim_radius P _ _ _ Hzt Hz0 Hc).
Qed.

Lemma zero_trim_depth_gives_nan_path_witness :
  PowLimits limits_libm /\
  is_zero (fl (PyFloat 0)) = true /\
  finite_nonzero (1 / 3 * fl (PyFloat 0x1.4cccccccccccdp+0)) = true /\
  is_finite (fcos (Libm := limits_libm) (fl (PyFloat 0))) = true /\
  exists (s : locals) (h' : store) (xs zs : list float),
    plot_flight_path (L := limits_libm) (PyFloat 0) (PyFloat 0x1.4cccccccccccdp+0)
      (PyFloat 0) [] = Ok (s, h') /\
    h' !! v_x s = Some xs /\ h' !! v_z s = Some zs /\
    is_infinity (fl (v_C s)) = true /\
    forall j : nat, 1 <= j < N ->
      xs !! j = Some nan /\ zs !! j = Some nan.
Proof.
  split; [exact limits_libm_pow_limits|].
  do 3 (split; [reflexivity|]).
  apply (zero_trim_depth_gives_nan_path limits_libm (PyFloat 0)
           (PyFloat 0x1.4cccccccccccdp+0) (PyFloat 0) [] limits_libm_pow_limits);
    reflexivity.
Defined.

End ZeroTrimRun.
